(** * PixelGL: a shallow embedding of [js/PixelGL.js]

    The class [PixelGL] keeps a CPU-side RGBA byte buffer ([this.data], a
    [Uint8Array]), uploads it to a WebGL texture on every [render] and draws
    one textured quad.  This development embeds the class method by method:

    - the instance is a record of its fields; a method is a computation in a
      state-and-exception monad over that record (JavaScript mutates [this]
      and may throw; an [async] method that rejects is a method that throws);
    - the host (DOM lookup, WebGL context creation, [fetch], the shader
      compiler and linker) is a record of functions, a parameter of the
      methods that call it: the code is verified for every behaviour of the
      host;
    - [console.error] appends a structured diagnostic to [console];
    - integers are [Z] and the readings of the clock are rationals; the
      numbers of the matrix routines are IEEE 754 doubles with their
      rounding, infinities and NaN ([spec_float] at precision 53), and a
      store into a [Float32Array] rounds to precision 24. *)

From Stdlib Require Import ZArith QArith Qcanon String List Lia.
From Stdlib Require Import SpecFloat.
From stdpp Require Import base list.
Import ListNotations.

Local Open Scope string_scope.
Local Open Scope Z_scope.

(** ** JavaScript data *)

(** The errors the modelled code can raise. *)
Inductive js_error : Type :=
| TypeError (what : string)
| RangeError (what : string)
| SyntaxError (what : string).

(** How the evaluation of a method ends: it returns, or it throws. *)
Inductive completion (A : Type) : Type :=
| Normal (a : A)
| Throw (e : js_error).
Arguments Normal {A} a.
Arguments Throw {A} e.

(** The two results a method without a [return value] can give. *)
Inductive void : Type := Undefined | Null.

(** *** [Uint8Array] *)

(** [ToUint8] on an integer. *)
Definition to_uint8 (v : Z) : Z := v mod 256.

(** [a[i]] on a typed array: [undefined] ([None]) unless [i] is a valid
    integer index. *)
Definition typed_get (a : list Z) (i : Z) : option Z :=
  if 0 <=? i then a !! Z.to_nat i else None.

(** [a[i] = v] on a [Uint8Array]: the value is converted with [ToUint8]; a
    write whose index is not a valid integer index is dropped, the array never
    grows. *)
Definition typed_set (a : list Z) (i : Z) (v : Z) : list Z :=
  if 0 <=? i then <[Z.to_nat i := to_uint8 v]> a else a.

(** [source[i]] on the array given to [loadPixelData], as the number the
    assignment into the [Uint8Array] converts: an absent element is
    [undefined], which [ToUint8] sends to 0. *)
Definition array_get (source : list Z) (i : Z) : Z :=
  default 0 (typed_get source i).

(** *** Numbers

    A JavaScript number is an IEEE 754 double; the arithmetic operators
    round to nearest, ties to even. *)
Definition number : Type := spec_float.

Definition number_add : number -> number -> number := SFadd 53 1024.
Definition number_sub : number -> number -> number := SFsub 53 1024.
Definition number_mul : number -> number -> number := SFmul 53 1024.
Definition number_div : number -> number -> number := SFdiv 53 1024.

Declare Scope js_scope.
Delimit Scope js_scope with js.
Bind Scope js_scope with number.
Notation "x + y" := (number_add x y) : js_scope.
Notation "x - y" := (number_sub x y) : js_scope.
Notation "x * y" := (number_mul x y) : js_scope.
Notation "x / y" := (number_div x y) : js_scope.

(** The number an integer literal or an integer-valued field denotes (the
    nearest double; the integer itself up to 2^53). *)
Definition of_Z (n : Z) : number := binary_normalize 53 1024 n 0 false.

Definition NaN : number := S754_nan.

(** The float of the given precision nearest to a number. *)
Definition normalize (prec emax : Z) (x : number) : number :=
  match x with
  | S754_finite s m e => binary_round prec emax s m e
  | _ => x
  end.

(** [Math.fround]: what a [Float32Array] element holds after a number is
    stored into it, as the double that reading the element gives. *)
Definition fround (x : number) : number :=
  normalize 53 1024 (normalize 24 128 x).

(** The rational a finite number is, in lowest terms. *)
Definition value (x : number) : option Q :=
  match x with
  | S754_zero _ => Some 0%Q
  | S754_finite s m e =>
      Some (Qred (inject_Z (cond_Zopp s (Zpos m)) * 2 ^ e)%Q)
  | _ => None
  end.

Arguments number_add : simpl never.
Arguments number_sub : simpl never.
Arguments number_mul : simpl never.
Arguments number_div : simpl never.
Arguments of_Z : simpl never.
Arguments fround : simpl never.

(** *** 4x4 matrices *)

(** The elements of a [Float32Array]. *)
Definition mat4 : Type := list number.

(** [src[i]] on a matrix: an element of a [Float32Array(16)]; on a shorter
    array the element is [undefined], which arithmetic and the store into a
    [Float32Array] turn into NaN. *)
Definition mat_get (src : mat4) (i : nat) : number := default NaN (src !! i).

(** ** WebGL objects *)

Definition VERTEX_SHADER : Z := 35633.
Definition FRAGMENT_SHADER : Z := 35632.

Record shader : Type := {
  shader_type : Z;
  shader_source : string
}.

Record program : Type := {
  attached : list shader
}.

(** The part of the WebGL context the class acts on: the size of its
    canvas, as the class reads it back, and for each kind of call the class
    makes, the arguments of the last one (or the list or the number of
    them). *)
Record gl_context : Type := {
  canvas_width : Z;
  canvas_height : Z;
  viewport : Z * Z * Z * Z;
  texture_image : option (Z * Z * option (list Z));
  current_program : option program;
  array_buffers : list (list Z);
  uniform_texture : option Z;
  uniform_matrix : option mat4;
  draw_calls : nat;
  deleted_shaders : list shader;
  deleted_programs : list program
}.

Definition fresh_context : gl_context :=
  {| canvas_width := 300; canvas_height := 150; viewport := (0, 0, 300, 150);
     texture_image := None; current_program := None;
     array_buffers := [];
     uniform_texture := None; uniform_matrix := None; draw_calls := 0;
     deleted_shaders := []; deleted_programs := [] |}.

(** ** Diagnostics

    One constructor per [console.error] call of the class, with the values
    its template literal interpolates, in the order of the text. *)
Inductive diagnostic : Type :=
(** Error finding canvas. Provided ID: [canvasID] *)
| ErrorFindingCanvas (canvasID : string)
(** Error getting WebGL context for canvas. Provided ID: [canvasID] *)
| ErrorGettingContext (canvasID : string)
(** Error creating shader program. *)
| ErrorCreatingShaderProgram
(** Could not load shaders. *)
| CouldNotLoadShaders
(** Error linking shader program. Info: [info] *)
| ErrorLinkingProgram (info : string)
(** Error retrieving source for shader. URI: [uri] Status: [statusText]
    ([status]) *)
| ErrorRetrievingSource (uri : string) (statusText : string) (status : Z)
(** Could not compile shaders. *)
| CouldNotCompileShaders
(** Error compiling shader. Shader: [shaderName] Info: [info] *)
| ErrorCompilingShader (shaderName : string) (info : string)
(** Unable to load pixel data with different dimensions. *)
| UnableToLoadPixelData.

(** ** The instance

    The fields of [this].  A field that holds an object is [None] while it
    is [null] or [undefined]; [canvas] names the element found, [texture]
    says whether the texture was created.  The constants [textureLevel],
    [textureBorder], [textureFormat] and [textureType], and the location
    tables, are never tested by the class and are left out. *)

Record PixelGL : Type := {
  safe : bool;
  initialized : bool;
  canvas : option string;
  gl : option gl_context;
  width : Z;
  height : Z;
  pixelCount : Z;
  byteCount : Z;
  data : option (list Z);
  texture : bool;
  this_program : option program;
  lastRenderDuration : Qc;
  lastRenderEnded : Qc;
  console : list diagnostic
}.

(** The object before the constructor body runs: every field is
    [undefined] (numbers that are never read in that state are 0). *)
Definition blank : PixelGL :=
  {| safe := false; initialized := false; canvas := None; gl := None;
     width := 0; height := 0; pixelCount := 0; byteCount := 0; data := None;
     texture := false; this_program := None;
     lastRenderDuration := 0%Qc; lastRenderEnded := 0%Qc; console := [] |}.

Definition set_safe (b : bool) (s : PixelGL) : PixelGL :=
  {| safe := b; initialized := initialized s; canvas := canvas s; gl := gl s;
     width := width s; height := height s; pixelCount := pixelCount s;
     byteCount := byteCount s; data := data s; texture := texture s;
     this_program := this_program s;
     lastRenderDuration := lastRenderDuration s;
     lastRenderEnded := lastRenderEnded s; console := console s |}.

Definition set_initialized (b : bool) (s : PixelGL) : PixelGL :=
  {| safe := safe s; initialized := b; canvas := canvas s; gl := gl s;
     width := width s; height := height s; pixelCount := pixelCount s;
     byteCount := byteCount s; data := data s; texture := texture s;
     this_program := this_program s;
     lastRenderDuration := lastRenderDuration s;
     lastRenderEnded := lastRenderEnded s; console := console s |}.

Definition set_canvas (c : option string) (s : PixelGL) : PixelGL :=
  {| safe := safe s; initialized := initialized s; canvas := c; gl := gl s;
     width := width s; height := height s; pixelCount := pixelCount s;
     byteCount := byteCount s; data := data s; texture := texture s;
     this_program := this_program s;
     lastRenderDuration := lastRenderDuration s;
     lastRenderEnded := lastRenderEnded s; console := console s |}.

Definition set_gl (g : option gl_context) (s : PixelGL) : PixelGL :=
  {| safe := safe s; initialized := initialized s; canvas := canvas s; gl := g;
     width := width s; height := height s; pixelCount := pixelCount s;
     byteCount := byteCount s; data := data s; texture := texture s;
     this_program := this_program s;
     lastRenderDuration := lastRenderDuration s;
     lastRenderEnded := lastRenderEnded s; console := console s |}.

Definition set_size (w h : Z) (s : PixelGL) : PixelGL :=
  {| safe := safe s; initialized := initialized s; canvas := canvas s;
     gl := gl s; width := w; height := h; pixelCount := pixelCount s;
     byteCount := byteCount s; data := data s; texture := texture s;
     this_program := this_program s;
     lastRenderDuration := lastRenderDuration s;
     lastRenderEnded := lastRenderEnded s; console := console s |}.

Definition set_counts (p b : Z) (s : PixelGL) : PixelGL :=
  {| safe := safe s; initialized := initialized s; canvas := canvas s;
     gl := gl s; width := width s; height := height s; pixelCount := p;
     byteCount := b; data := data s; texture := texture s;
     this_program := this_program s;
     lastRenderDuration := lastRenderDuration s;
     lastRenderEnded := lastRenderEnded s; console := console s |}.

Definition set_data (d : option (list Z)) (s : PixelGL) : PixelGL :=
  {| safe := safe s; initialized := initialized s; canvas := canvas s;
     gl := gl s; width := width s; height := height s;
     pixelCount := pixelCount s; byteCount := byteCount s; data := d;
     texture := texture s; this_program := this_program s;
     lastRenderDuration := lastRenderDuration s;
     lastRenderEnded := lastRenderEnded s; console := console s |}.

Definition set_texture (t : bool) (s : PixelGL) : PixelGL :=
  {| safe := safe s; initialized := initialized s; canvas := canvas s;
     gl := gl s; width := width s; height := height s;
     pixelCount := pixelCount s; byteCount := byteCount s; data := data s;
     texture := t; this_program := this_program s;
     lastRenderDuration := lastRenderDuration s;
     lastRenderEnded := lastRenderEnded s; console := console s |}.

Definition set_program (p : option program) (s : PixelGL) : PixelGL :=
  {| safe := safe s; initialized := initialized s; canvas := canvas s;
     gl := gl s; width := width s; height := height s;
     pixelCount := pixelCount s; byteCount := byteCount s; data := data s;
     texture := texture s; this_program := p;
     lastRenderDuration := lastRenderDuration s;
     lastRenderEnded := lastRenderEnded s; console := console s |}.

Definition set_render_stats (d e : Qc) (s : PixelGL) : PixelGL :=
  {| safe := safe s; initialized := initialized s; canvas := canvas s;
     gl := gl s; width := width s; height := height s;
     pixelCount := pixelCount s; byteCount := byteCount s; data := data s;
     texture := texture s; this_program := this_program s;
     lastRenderDuration := d; lastRenderEnded := e; console := console s |}.

Definition set_console (c : list diagnostic) (s : PixelGL) : PixelGL :=
  {| safe := safe s; initialized := initialized s; canvas := canvas s;
     gl := gl s; width := width s; height := height s;
     pixelCount := pixelCount s; byteCount := byteCount s; data := data s;
     texture := texture s; this_program := this_program s;
     lastRenderDuration := lastRenderDuration s;
     lastRenderEnded := lastRenderEnded s; console := c |}.

(** Updates of the WebGL context. *)

(** What [canvas.width] (or [height]) holds after [n] is assigned to it: the
    attribute is an [unsigned long] that reflects a non-negative integer, so
    [n] is taken modulo 2^32, and a value beyond 2147483647 gives the
    default of the attribute (300 for the width, 150 for the height). *)
Definition canvas_dimension (default n : Z) : Z :=
  let n := n mod 4294967296 in
  if n <=? 2147483647 then n else default.

(** [this.gl.canvas.width = w; this.gl.canvas.height = h]. *)
Definition gl_set_canvas_size (w h : Z) (g : gl_context) : gl_context :=
  {| canvas_width := canvas_dimension 300 w;
     canvas_height := canvas_dimension 150 h; viewport := viewport g;
     texture_image := texture_image g; current_program := current_program g;
     array_buffers := array_buffers g; uniform_texture := uniform_texture g;
     uniform_matrix := uniform_matrix g; draw_calls := draw_calls g;
     deleted_shaders := deleted_shaders g;
     deleted_programs := deleted_programs g |}.

Definition gl_viewport (x y w h : Z) (g : gl_context) : gl_context :=
  {| canvas_width := canvas_width g; canvas_height := canvas_height g;
     viewport := (x, y, w, h);
     texture_image := texture_image g; current_program := current_program g;
     array_buffers := array_buffers g; uniform_texture := uniform_texture g;
     uniform_matrix := uniform_matrix g; draw_calls := draw_calls g;
     deleted_shaders := deleted_shaders g;
     deleted_programs := deleted_programs g |}.

Definition gl_texImage2D (w h : Z) (pixels : option (list Z))
    (g : gl_context) : gl_context :=
  {| canvas_width := canvas_width g; canvas_height := canvas_height g;
     viewport := viewport g;
     texture_image := Some (w, h, pixels);
     current_program := current_program g;
     array_buffers := array_buffers g; uniform_texture := uniform_texture g;
     uniform_matrix := uniform_matrix g; draw_calls := draw_calls g;
     deleted_shaders := deleted_shaders g;
     deleted_programs := deleted_programs g |}.

Definition gl_useProgram (p : program) (g : gl_context) : gl_context :=
  {| canvas_width := canvas_width g; canvas_height := canvas_height g;
     viewport := viewport g; texture_image := texture_image g;
     current_program := Some p;
     array_buffers := array_buffers g; uniform_texture := uniform_texture g;
     uniform_matrix := uniform_matrix g; draw_calls := draw_calls g;
     deleted_shaders := deleted_shaders g;
     deleted_programs := deleted_programs g |}.

Definition gl_bufferData (vertices : list Z) (g : gl_context) : gl_context :=
  {| canvas_width := canvas_width g; canvas_height := canvas_height g;
     viewport := viewport g; texture_image := texture_image g;
     current_program := current_program g;
     array_buffers := array_buffers g ++ [vertices];
     uniform_texture := uniform_texture g;
     uniform_matrix := uniform_matrix g; draw_calls := draw_calls g;
     deleted_shaders := deleted_shaders g;
     deleted_programs := deleted_programs g |}.

Definition gl_uniform1i (unit : Z) (g : gl_context) : gl_context :=
  {| canvas_width := canvas_width g; canvas_height := canvas_height g;
     viewport := viewport g; texture_image := texture_image g;
     current_program := current_program g;
     array_buffers := array_buffers g; uniform_texture := Some unit;
     uniform_matrix := uniform_matrix g; draw_calls := draw_calls g;
     deleted_shaders := deleted_shaders g;
     deleted_programs := deleted_programs g |}.

Definition gl_uniformMatrix4fv (m : mat4) (g : gl_context) : gl_context :=
  {| canvas_width := canvas_width g; canvas_height := canvas_height g;
     viewport := viewport g; texture_image := texture_image g;
     current_program := current_program g;
     array_buffers := array_buffers g; uniform_texture := uniform_texture g;
     uniform_matrix := Some m; draw_calls := draw_calls g;
     deleted_shaders := deleted_shaders g;
     deleted_programs := deleted_programs g |}.

Definition gl_drawArrays (g : gl_context) : gl_context :=
  {| canvas_width := canvas_width g; canvas_height := canvas_height g;
     viewport := viewport g; texture_image := texture_image g;
     current_program := current_program g;
     array_buffers := array_buffers g; uniform_texture := uniform_texture g;
     uniform_matrix := uniform_matrix g; draw_calls := S (draw_calls g);
     deleted_shaders := deleted_shaders g;
     deleted_programs := deleted_programs g |}.

Definition gl_deleteShader (sh : shader) (g : gl_context) : gl_context :=
  {| canvas_width := canvas_width g; canvas_height := canvas_height g;
     viewport := viewport g; texture_image := texture_image g;
     current_program := current_program g;
     array_buffers := array_buffers g; uniform_texture := uniform_texture g;
     uniform_matrix := uniform_matrix g; draw_calls := draw_calls g;
     deleted_shaders := sh :: deleted_shaders g;
     deleted_programs := deleted_programs g |}.

Definition gl_deleteProgram (p : program) (g : gl_context) : gl_context :=
  {| canvas_width := canvas_width g; canvas_height := canvas_height g;
     viewport := viewport g; texture_image := texture_image g;
     current_program := current_program g;
     array_buffers := array_buffers g; uniform_texture := uniform_texture g;
     uniform_matrix := uniform_matrix g; draw_calls := draw_calls g;
     deleted_shaders := deleted_shaders g;
     deleted_programs := p :: deleted_programs g |}.

(** ** The method monad

    A method runs on the instance and ends with a completion; what it wrote
    into the instance before throwing stays written. *)
Definition M (A : Type) : Type := PixelGL -> completion A * PixelGL.

Definition ret {A : Type} (a : A) : M A := fun s => (Normal a, s).

Definition bind {A B : Type} (m : M A) (k : A -> M B) : M B :=
  fun s =>
    match m s with
    | (Normal a, s') => k a s'
    | (Throw e, s') => (Throw e, s')
    end.

Notation "'let!' x ':=' c 'in' k" := (bind c (fun x => k))
  (at level 10, x name, c at level 100, k at level 200).
Notation "'run' c 'in' k" := (bind c (fun _ => k))
  (at level 10, c at level 100, k at level 200).

Definition throw {A : Type} (e : js_error) : M A := fun s => (Throw e, s).

Definition self : M PixelGL := fun s => (Normal s, s).

Definition assign (f : PixelGL -> PixelGL) : M unit :=
  fun s => (Normal tt, f s).

(** [await p], and a synchronous call that may throw. *)
Definition await {A : Type} (p : completion A) : M A :=
  fun s => (p, s).

(** [console.error(d)]. *)
Definition console_error (d : diagnostic) : M unit :=
  assign (fun s => set_console (console s ++ [d]) s).

(** Evaluating [this.gl.f]: a [TypeError] when [this.gl] is [null] or
    [undefined]. *)
Definition this_gl : M gl_context :=
  let! s := self in
  match gl s with
  | Some g => ret g
  | None => throw (TypeError "this.gl is null or undefined")
  end.

(** A call [this.gl.f(...)] that changes the context. *)
Definition gl_call (f : gl_context -> gl_context) : M unit :=
  let! g := this_gl in
  assign (set_gl (Some (f g))).

(** Evaluating [this.data[...]] or [this.data.length]: a [TypeError] when
    [this.data] is [undefined]. *)
Definition this_data : M (list Z) :=
  let! s := self in
  match data s with
  | Some d => ret d
  | None => throw (TypeError "this.data is undefined")
  end.

(** [new Uint8Array(n)]: [n] zero bytes; a [RangeError] for a negative
    length and for one above [max], the longest array the engine
    allocates. *)
Definition new_Uint8Array (max n : Z) : completion (list Z) :=
  if (n <? 0) || (max <? n) then
    Throw (RangeError "Invalid typed array length")
  else Normal (repeat 0 (Z.to_nat n)).

(** [Promise.all]: the responses in order, or a rejection when a promise of
    the list rejects (when several do, that of the first of the list). *)
Fixpoint promise_all {A : Type} (ps : list (completion A))
    : completion (list A) :=
  match ps with
  | [] => Normal []
  | Normal a :: ps' =>
      match promise_all ps' with
      | Normal l => Normal (a :: l)
      | Throw e => Throw e
      end
  | Throw e :: _ => Throw e
  end.

(** Truthiness of a number. *)
Definition truthy (n : Z) : bool := negb (n =? 0).

(** ** Matrix Builder ([translateMatrix], [scaleMatrix])

    Both are pure: they read [src] and fill a new [Float32Array(16)], each
    store rounding the number assigned. *)

Definition translateMatrix (src : mat4) (tx ty : number) : mat4 :=
  let src00 := mat_get src 0 in
  let src01 := mat_get src 1 in
  let src02 := mat_get src 2 in
  let src03 := mat_get src 3 in
  let src10 := mat_get src (1 * 4 + 0) in
  let src11 := mat_get src (1 * 4 + 1) in
  let src12 := mat_get src (1 * 4 + 2) in
  let src13 := mat_get src (1 * 4 + 3) in
  let src20 := mat_get src (2 * 4 + 0) in
  let src21 := mat_get src (2 * 4 + 1) in
  let src22 := mat_get src (2 * 4 + 2) in
  let src23 := mat_get src (2 * 4 + 3) in
  let src30 := mat_get src (3 * 4 + 0) in
  let src31 := mat_get src (3 * 4 + 1) in
  let src32 := mat_get src (3 * 4 + 2) in
  let src33 := mat_get src (3 * 4 + 3) in
  map fround
    [ src00; src01; src02; src03;
      src10; src11; src12; src13;
      src20; src21; src22; src23;
      src00 * tx + src10 * ty + src20 + src30;
      src01 * tx + src11 * ty + src21 + src31;
      src02 * tx + src12 * ty + src22 + src32;
      src03 * tx + src13 * ty + src23 + src33 ]%js.

Definition scaleMatrix (src : mat4) (sx sy : number) : mat4 :=
  map fround
    [ sx * mat_get src (0 * 4 + 0);
      sx * mat_get src (0 * 4 + 1);
      sx * mat_get src (0 * 4 + 2);
      sx * mat_get src (0 * 4 + 3);
      sy * mat_get src (1 * 4 + 0);
      sy * mat_get src (1 * 4 + 1);
      sy * mat_get src (1 * 4 + 2);
      sy * mat_get src (1 * 4 + 3);
      mat_get src (2 * 4 + 0);
      mat_get src (2 * 4 + 1);
      mat_get src (2 * 4 + 2);
      mat_get src (2 * 4 + 3);
      mat_get src 12;
      mat_get src 13;
      mat_get src 14;
      mat_get src 15 ]%js.

(** [createOrthographicMatrix] reads the canvas size through [this.gl]. *)
Definition createOrthographicMatrix : M mat4 :=
  let! g := this_gl in
  let left := of_Z 0 in
  let right := of_Z (canvas_width g) in
  let bottom := of_Z (canvas_height g) in
  let top := of_Z 0 in
  let near := of_Z (- 1) in
  let far := of_Z 1 in
  ret (map fround
         [ of_Z 2 / (right - left); of_Z 0; of_Z 0; of_Z 0;
           of_Z 0; of_Z 2 / (top - bottom); of_Z 0; of_Z 0;
           of_Z 0; of_Z 0; of_Z 2 / (near - far); of_Z 0;
           (left + right) / (left - right);
           (bottom + top) / (bottom - top);
           (near + far) / (near - far);
           of_Z 1 ]%js).

(** ** Pixel Buffer Accessors *)

(** The object [getPixel] returns; a channel read outside the buffer is
    [undefined] ([None]). *)
Record pixel : Type := {
  px : Z;
  py : Z;
  red : option Z;
  green : option Z;
  blue : option Z;
  alpha : option Z
}.

(** [this.data[i] = v]. *)
Definition data_store (i v : Z) : M unit :=
  let! d := this_data in
  assign (set_data (Some (typed_set d i v))).

(** [this.data[i]]. *)
Definition data_load (i : Z) : M (option Z) :=
  let! d := this_data in
  ret (typed_get d i).

(** The coordinates and the index are integers, and the arithmetic of the
    index is that of the integers: that of the doubles of the code as long
    as the coordinates and every intermediate result are safe integers
    (below 2^53 in magnitude), as they are for every index of a buffer. *)
Definition setPixel (x y red green blue alpha : Z) : M unit :=
  let! s := self in
  let index := ((y * width s) + x) * 4 in
  run data_store (index + 0) red in
  run data_store (index + 1) green in
  run data_store (index + 2) blue in
  data_store (index + 3) alpha.

Definition getPixel (x y : Z) : M pixel :=
  let! s := self in
  let index := ((y * width s) + x) * 4 in
  let! red := data_load (index + 0) in
  let! green := data_load (index + 1) in
  let! blue := data_load (index + 2) in
  let! alpha := data_load (index + 3) in
  ret {| px := x; py := y; red := red; green := green; blue := blue;
         alpha := alpha |}.

(** The loop of [loadPixelData], with [n] iterations left from index [i]:
    [this.data[i] = source[i]].  The bound [this.data.length] does not change
    during the loop, a typed array has a fixed length. *)
Fixpoint loadPixelData_loop (n : nat) (i : Z) (source : list Z) : M unit :=
  match n with
  | O => ret tt
  | S n' =>
      run data_store i (array_get source i) in
      loadPixelData_loop n' (i + 1) source
  end.

Definition loadPixelData (source : list Z) : M unit :=
  let! d := this_data in
  if negb (Z.of_nat (length source) =? Z.of_nat (length d)) then
    run console_error UnableToLoadPixelData in
    ret tt
  else
    loadPixelData_loop (length d) 0 source.

(** ** Renderer *)


Definition updateTexture : M unit :=
  let! s := self in
  gl_call (gl_texImage2D (width s) (height s) (data s)).

(** [render], given the two readings of [performance.now()]. *)
Definition render (renderBegin renderFinish : Qc) : M unit :=
  run updateTexture in
  run gl_call gl_drawArrays in
  assign (set_render_stats (renderFinish - renderBegin)%Qc renderFinish).

(** ** Context/Resource Initializer and Shader Program Manager *)

(** What [fetch] resolves to: the status line, and what [text()] on the
    response resolves to (or rejects with, when the body cannot be read). *)
Module Response.
Record t : Type := {
  status : Z;
  statusText : string;
  text : completion string
}.
End Response.

(** A response whose body has been read. *)
Record response : Type := {
  status : Z;
  statusText : string;
  text : string
}.

(** A call of one of the public methods on an existing instance. *)
Inductive call : Type :=
| CallInitialize (vertexShaderURI fragementShaderURI : string)
| CallRender (renderBegin renderFinish : Qc)
| CallSetPixel (x y red green blue alpha : Z)
| CallGetPixel (x y : Z)
| CallLoadPixelData (source : list Z).

(** The host of the page: each field is one behaviour of the browser the
    class depends on. *)
Record host : Type := {
  (** [document.querySelector(selector)]: the element found (named by its
      id), [null], or a [SyntaxError] for a selector that does not parse. *)
  document_querySelector : string -> completion (option string);
  (** [element.getContext("webgl")]: whether it gives a WebGL context (or
      [null]); a [TypeError] when the element is not a canvas, and so has
      no such method. *)
  canvas_getContext : string -> completion bool;
  (** The longest typed array the engine allocates. *)
  typed_array_max_length : Z;
  (** [fetch(uri)]: a response (of any status), or a rejection. *)
  window_fetch : string -> completion Response.t;
  (** The shader compiler: [COMPILE_STATUS] and the info log for a shader
      type and a source text. *)
  gl_compile_status : Z -> string -> bool;
  gl_shader_info_log : Z -> string -> string;
  (** The linker: [LINK_STATUS] and the info log of a program. *)
  gl_link_status : program -> bool;
  gl_program_info_log : program -> string
}.

(** [fetch H uri]: the response [fetch(uri)] resolves with, once its body
    has been read with [text()]; the rejection, when the fetch rejects or
    the body cannot be read. *)
Definition fetch (H : host) (uri : string) : completion response :=
  match window_fetch H uri with
  | Normal r =>
      match Response.text r with
      | Normal body =>
          Normal {| status := Response.status r;
                    statusText := Response.statusText r;
                    text := body |}
      | Throw e => Throw e
      end
  | Throw e => Throw e
  end.

Section Host.

Variable H : host.

Definition createEmptyTexture : M bool :=
  let! s := self in
  run gl_call (gl_texImage2D (width s) (height s) (data s)) in
  ret true.

Definition constructor (canvasID : string) (width height : Z) : M unit :=
  run assign (set_safe false) in
  run assign (set_initialized false) in
  let! canvas := await (document_querySelector H ("#" ++ canvasID)) in
  run assign (set_canvas canvas) in
  match canvas with
  | None =>
      run console_error (ErrorFindingCanvas canvasID) in
      ret tt
  | Some element =>
      let! supported := await (canvas_getContext H element) in
      let context := if supported then Some fresh_context else None in
      run assign (set_gl context) in
      match context with
      | None =>
          run console_error (ErrorGettingContext canvasID) in
          ret tt
      | Some _ =>
          run assign (set_size width height) in
          run gl_call (gl_set_canvas_size width height) in
          run gl_call (gl_viewport 0 0 width height) in
          let pixelCount := width * height in
          let byteCount := pixelCount * 4 in
          run assign (set_counts pixelCount byteCount) in
          let! data :=
            await (new_Uint8Array (typed_array_max_length H) byteCount) in
          run assign (set_data (Some data)) in
          let! texture := createEmptyTexture in
          run assign (set_texture texture) in
          run assign (set_program None) in
          run assign (set_render_stats 0%Qc 0%Qc) in
          assign (set_safe true)
      end
  end.

(** [new PixelGL(canvasID, width, height)]. *)
Definition construct (canvasID : string) (width height : Z)
    : completion unit * PixelGL :=
  constructor canvasID width height blank.

Definition compileShader (shaderSource : string) (shaderType : Z)
    : M (option shader) :=
  let! _ := this_gl in
  let shader :=
    {| shader_type := shaderType; shader_source := shaderSource |} in
  let compiled := gl_compile_status H shaderType shaderSource in
  if negb compiled then
    (* [(shaderType = this.gl.VERTEX_SHADER) ? ... : ...]: the condition is
       an assignment, its value is the value assigned *)
    let shaderType := VERTEX_SHADER in
    let shaderName :=
      if truthy shaderType then "vertex shader"
      else
        let shaderType := FRAGMENT_SHADER in
        if truthy shaderType then "fragement shader" else "unknown" in
    run console_error
      (ErrorCompilingShader shaderName
         (gl_shader_info_log H (shader_type shader) shaderSource)) in
    run gl_call (gl_deleteShader shader) in
    ret None
  else
    ret (Some shader).

(** The loop over the responses of [compileShaders]: the diagnostic of the
    first response whose status is not 200, if there is one. *)
Fixpoint check_responses (vertexShaderURI : string)
    (shaderRequests : list Response.t) : option diagnostic :=
  match shaderRequests with
  | [] => None
  | response :: rest =>
      if negb (Response.status response =? 200) then
        Some (ErrorRetrievingSource vertexShaderURI
                (Response.statusText response) (Response.status response))
      else check_responses vertexShaderURI rest
  end.

Definition compileShaders (vertexShaderURI fragementShaderURI : string)
    : M (option (list shader)) :=
  let vertexShaderRequest := window_fetch H vertexShaderURI in
  let fragmentShaderRequest := window_fetch H fragementShaderURI in
  let! shaderRequests :=
    await (promise_all [vertexShaderRequest; fragmentShaderRequest]) in
  match check_responses vertexShaderURI shaderRequests with
  | Some d =>
      run console_error d in
      ret None
  | None =>
      match shaderRequests with
      | [response0; response1] =>
          let! vertexShaderSource := await (Response.text response0) in
          let! fragmentShaderSource := await (Response.text response1) in
          let! _ := this_gl in
          let! vertextShader :=
            compileShader vertexShaderSource VERTEX_SHADER in
          let! _ := this_gl in
          let! fragmentShader :=
            compileShader fragmentShaderSource FRAGMENT_SHADER in
          match vertextShader, fragmentShader with
          | Some v, Some f => ret (Some [v; f])
          | _, _ =>
              run console_error CouldNotCompileShaders in
              ret None
          end
      | _ => throw (TypeError "shaderRequests[i] is undefined")
      end
  end.

Definition createShaderProgram (vertexShaderURI fragementShaderURI : string)
    : M (option program) :=
  let! shaders := compileShaders vertexShaderURI fragementShaderURI in
  match shaders with
  | None =>
      run console_error CouldNotLoadShaders in
      ret None
  | Some shaders =>
      let! _ := this_gl in
      let program :=
        fold_left (fun p sh => {| attached := attached p ++ [sh] |})
          shaders {| attached := [] |} in
      let linked := gl_link_status H program in
      if negb linked then
        run console_error
          (ErrorLinkingProgram (gl_program_info_log H program)) in
        run gl_call (gl_deleteProgram program) in
        ret None
      else
        ret (Some program)
  end.

Definition quadVertices : list Z :=
  [ 0; 0;
    0; 1;
    1; 0;
    1; 0;
    0; 1;
    1; 1 ].

Definition initialize (vertexShaderURI fragementShaderURI : string)
    : M void :=
  let! program := createShaderProgram vertexShaderURI fragementShaderURI in
  run assign (set_program program) in
  match program with
  | None =>
      run console_error ErrorCreatingShaderProgram in
      ret Null
  | Some program =>
      run gl_call (gl_useProgram program) in
      (* the attribute and uniform locations are opaque handles: looking
         them up, and binding or enabling a buffer for one, changes nothing
         of the context that is modelled *)
      run gl_call (gl_bufferData quadVertices) in
      run gl_call (gl_bufferData quadVertices) in
      run gl_call (gl_uniform1i 0) in
      let! matrix := createOrthographicMatrix in
      let matrix := translateMatrix matrix (of_Z 0) (of_Z 0) in
      let! s := self in
      let matrix :=
        scaleMatrix matrix (of_Z (width s)) (of_Z (height s)) in
      run gl_call (gl_uniformMatrix4fv matrix) in
      run assign (set_initialized true) in
      ret Undefined
  end.

(** A caller's use of the instance: one public method call (its result
    dropped), and a sequence of them.  A call that throws leaves the
    instance as it was when it threw, and the caller may go on. *)
Definition perform (c : call) : M unit :=
  match c with
  | CallInitialize v f => let! _ := initialize v f in ret tt
  | CallRender renderBegin renderFinish => render renderBegin renderFinish
  | CallSetPixel x y r g b a => setPixel x y r g b a
  | CallGetPixel x y => let! _ := getPixel x y in ret tt
  | CallLoadPixelData source => loadPixelData source
  end.

Definition run_calls (calls : list call) (s : PixelGL) : PixelGL :=
  fold_left (fun s c => snd (perform c s)) calls s.

(** The instance after [new PixelGL(canvasID, width, height)] and a
    sequence of calls. *)
Definition instance (canvasID : string) (width height : Z)
    (calls : list call) : PixelGL :=
  run_calls calls (snd (construct canvasID width height)).

(** The five steps [initialize] depends on, as the code tests them: both
    fetches resolve with status 200, both sources compile, the program
    links. *)
Definition fetched (uri : string) : bool :=
  match fetch H uri with
  | Normal r => status r =? 200
  | Throw _ => false
  end.

Definition compiles (shaderType : Z) (uri : string) : bool :=
  match fetch H uri with
  | Normal r => gl_compile_status H shaderType (text r)
  | Throw _ => false
  end.

Definition links (vertexShaderURI fragementShaderURI : string) : bool :=
  match fetch H vertexShaderURI, fetch H fragementShaderURI with
  | Normal rv, Normal rf =>
      gl_link_status H
        {| attached :=
             [ {| shader_type := VERTEX_SHADER; shader_source := text rv |};
               {| shader_type := FRAGMENT_SHADER;
                  shader_source := text rf |} ] |}
  | _, _ => false
  end.

Definition all_steps_succeed (vertexShaderURI fragementShaderURI : string)
    : bool :=
  fetched vertexShaderURI && fetched fragementShaderURI
  && compiles VERTEX_SHADER vertexShaderURI
  && compiles FRAGMENT_SHADER fragementShaderURI
  && links vertexShaderURI fragementShaderURI.

(** [fetch(uri)] resolves with a response, of whatever status, whose body
    can be read. *)
Definition resolves (uri : string) : Prop :=
  exists r, fetch H uri = Normal r.

(** [text()] on the response resolves. *)
Definition readable (r : Response.t) : bool :=
  match Response.text r with
  | Normal _ => true
  | Throw _ => false
  end.

(** Whether a call of [initialize] meets a rejection, which nothing in the
    class catches: one of the two fetches rejects, or both resolve with
    status 200 and one of the bodies cannot be read. *)
Definition rejects (vertexShaderURI fragementShaderURI : string) : bool :=
  match window_fetch H vertexShaderURI, window_fetch H fragementShaderURI with
  | Normal rv, Normal rf =>
      (Response.status rv =? 200) && (Response.status rf =? 200)
      && negb (readable rv && readable rf)
  | _, _ => true
  end.

End Host.

(** ** Reference definitions for the matrix claims

    Column-major 4x4 matrices: the entry of row [r] and column [c] is stored
    at index [c * 4 + r]. *)

Definition entry (m : mat4) (r c : nat) : number := mat_get m (c * 4 + r).

(** The product [a * b]. *)
Definition mat_mul (a b : mat4) : mat4 :=
  map (fun i =>
         let c := (i / 4)%nat in
         let r := (i mod 4)%nat in
         (entry a r 0 * entry b 0 c + entry a r 1 * entry b 1 c
          + entry a r 2 * entry b 2 c + entry a r 3 * entry b 3 c)%js)
      (seq 0 16).

(** The translation by [(tx, ty, tz)]. *)
Definition translation (tx ty tz : number) : mat4 :=
  [ of_Z 1; of_Z 0; of_Z 0; of_Z 0;
    of_Z 0; of_Z 1; of_Z 0; of_Z 0;
    of_Z 0; of_Z 0; of_Z 1; of_Z 0;
    tx; ty; tz; of_Z 1 ].

Definition identity_matrix : mat4 := translation (of_Z 0) (of_Z 0) (of_Z 0).

(** ** Concrete hosts and instances *)

Definition ok_response (body : string) : response :=
  {| status := 200; statusText := "OK"; text := body |}.

Definition not_found : response :=
  {| status := 404; statusText := "Not Found"; text := "" |}.

(** The response a server gives that delivers [r] with its whole body. *)
Definition served (r : response) : Response.t :=
  {| Response.status := status r;
     Response.statusText := statusText r;
     Response.text := Normal (text r) |}.

(** A response with status 200 whose connection is lost before the body
    has arrived. *)
Definition interrupted : Response.t :=
  {| Response.status := 200;
     Response.statusText := "OK";
     Response.text := Throw (TypeError "network error") |}.

(** A page with one canvas, [#canvas], that supports WebGL; both shader files
    are served, every shader compiles and every program links. *)
Definition demo_host : host :=
  {| document_querySelector := fun selector =>
       if String.eqb selector "#canvas" then Normal (Some "canvas")
       else Normal None;
     canvas_getContext := fun _ => Normal true;
     typed_array_max_length := 4294967296;
     window_fetch := fun uri =>
       if String.eqb uri "shaders/pixelGL.vert" then
         Normal (served (ok_response "void main() { }"))
       else if String.eqb uri "shaders/pixelGL.frag" then
         Normal (served (ok_response "void main() { }"))
       else Normal (served not_found);
     gl_compile_status := fun _ _ => true;
     gl_shader_info_log := fun _ _ => "";
     gl_link_status := fun _ => true;
     gl_program_info_log := fun _ => "" |}.

(** The same page opened from the file system: every [fetch] rejects. *)
Definition offline_host : host :=
  {| document_querySelector := document_querySelector demo_host;
     canvas_getContext := canvas_getContext demo_host;
     typed_array_max_length := typed_array_max_length demo_host;
     window_fetch := fun _ => Throw (TypeError "Failed to fetch");
     gl_compile_status := gl_compile_status demo_host;
     gl_shader_info_log := gl_shader_info_log demo_host;
     gl_link_status := gl_link_status demo_host;
     gl_program_info_log := gl_program_info_log demo_host |}.

(** The same page when the fragment shader file is missing. *)
Definition missing_fragment_host : host :=
  {| document_querySelector := document_querySelector demo_host;
     canvas_getContext := canvas_getContext demo_host;
     typed_array_max_length := typed_array_max_length demo_host;
     window_fetch := fun uri =>
       if String.eqb uri "shaders/pixelGL.vert" then
         Normal (served (ok_response "void main() { }"))
       else Normal (served not_found);
     gl_compile_status := gl_compile_status demo_host;
     gl_shader_info_log := gl_shader_info_log demo_host;
     gl_link_status := gl_link_status demo_host;
     gl_program_info_log := gl_program_info_log demo_host |}.

(** The same page when the fragment shader has a syntax error. *)
Definition broken_fragment_host : host :=
  {| document_querySelector := document_querySelector demo_host;
     canvas_getContext := canvas_getContext demo_host;
     typed_array_max_length := typed_array_max_length demo_host;
     window_fetch := window_fetch demo_host;
     gl_compile_status := fun shaderType _ => shaderType =? VERTEX_SHADER;
     gl_shader_info_log := fun _ _ => "ERROR: 0:1: syntax error";
     gl_link_status := gl_link_status demo_host;
     gl_program_info_log := gl_program_info_log demo_host |}.

(** The same page when the connection is lost while the fragment shader is
    being received. *)
Definition interrupted_host : host :=
  {| document_querySelector := document_querySelector demo_host;
     canvas_getContext := canvas_getContext demo_host;
     typed_array_max_length := typed_array_max_length demo_host;
     window_fetch := fun uri =>
       if String.eqb uri "shaders/pixelGL.frag" then Normal interrupted
       else window_fetch demo_host uri;
     gl_compile_status := gl_compile_status demo_host;
     gl_shader_info_log := gl_shader_info_log demo_host;
     gl_link_status := gl_link_status demo_host;
     gl_program_info_log := gl_program_info_log demo_host |}.

(** A page where the element with the id [canvas] is a [div]. *)
Definition div_host : host :=
  {| document_querySelector := document_querySelector demo_host;
     canvas_getContext := fun _ =>
       Throw (TypeError "this.canvas.getContext is not a function");
     typed_array_max_length := typed_array_max_length demo_host;
     window_fetch := window_fetch demo_host;
     gl_compile_status := gl_compile_status demo_host;
     gl_shader_info_log := gl_shader_info_log demo_host;
     gl_link_status := gl_link_status demo_host;
     gl_program_info_log := gl_program_info_log demo_host |}.

(** [new PixelGL(id, 4, 4)] with the id of the canvas, on three of the
    pages. *)
Definition offline_instance : PixelGL :=
  instance offline_host "canvas" 4 4 [].

Definition missing_fragment_instance : PixelGL :=
  instance missing_fragment_host "canvas" 4 4 [].

Definition broken_fragment_instance : PixelGL :=
  instance broken_fragment_host "canvas" 4 4 [].

(** A caller that writes outside the surface, loads a source of the wrong
    length, initializes, renders and reads outside the surface. *)
Definition busy_calls : list call :=
  [ CallSetPixel 7 (-3) 1 2 3 4;
    CallLoadPixelData [1; 2; 3];
    CallInitialize "shaders/pixelGL.vert" "shaders/pixelGL.frag";
    CallRender 0%Qc 1%Qc;
    CallGetPixel 100 100 ].

(** ** Vocabulary of the statements *)

(** [s] and [s'] agree on every field but [data]. *)
Definition same_but_data (s s' : PixelGL) : Prop :=
  set_data None s' = set_data None s.

(** An integer that a double holds exactly, as its neighbours: a safe
    integer. *)
Definition safe_integer (n : Z) : Prop :=
  - 9007199254740991 <= n <= 9007199254740991.

(** The index of the pixel [(x, y)] on a surface [w] wide is computed
    without rounding: the operands and the result of each operation of
    [((y * w) + x) * 4 + 3] are safe integers. *)
Definition index_exact (w x y : Z) : Prop :=
  safe_integer x /\ safe_integer y /\ safe_integer w
  /\ safe_integer (y * w) /\ safe_integer (y * w + x)
  /\ safe_integer ((y * w + x) * 4)
  /\ safe_integer ((y * w + x) * 4 + 3).

(** The buffer [setPixel] leaves. *)
Definition written (d : list Z) (index r g b a : Z) : list Z :=
  typed_set (typed_set (typed_set (typed_set d (index + 0) r)
                          (index + 1) g) (index + 2) b) (index + 3) a.

(** [built w h s]: [s] has the fields a successful constructor call with
    [w] and [h] gives it: the size, a context on a canvas that was given
    that size, and a buffer of [w * h * 4] bytes. *)
Definition built (w h : Z) (s : PixelGL) : Prop :=
  width s = w /\ height s = h
  /\ (exists g, gl s = Some g
                /\ canvas_width g = canvas_dimension 300 w
                /\ canvas_height g = canvas_dimension 150 h)
  /\ (exists d, data s = Some d /\ Z.of_nat (length d) = w * h * 4).

(** [keeps P m]: the method [m] takes an instance that satisfies [P] to one
    that satisfies [P], also when it throws. *)
Definition keeps {A : Type} (P : PixelGL -> Prop) (m : M A) : Prop :=
  forall s, P s -> P (snd (m s)).

(** A context update that leaves the canvas size alone. *)
Definition keeps_canvas (f : gl_context -> gl_context) : Prop :=
  forall g, canvas_width (f g) = canvas_width g
            /\ canvas_height (f g) = canvas_height g.

(** The properties of an instance that no field update of a public method
    (after construction) can break: the methods append to the console, call
    the context without resizing the canvas, overwrite bytes of the buffer
    without changing its length, and assign the render statistics, the
    program and the [initialized] flag. *)
Class Stable (P : PixelGL -> Prop) : Prop := {
  stable_console : forall c s, P s -> P (set_console c s);
  stable_gl : forall f g s,
    keeps_canvas f -> gl s = Some g -> P s -> P (set_gl (Some (f g)) s);
  stable_data : forall d d' s,
    data s = Some d -> length d' = length d -> P s ->
    P (set_data (Some d') s);
  stable_render_stats : forall d e s, P s -> P (set_render_stats d e s);
  stable_program : forall p s, P s -> P (set_program p s);
  stable_initialized : forall b s, P s -> P (set_initialized b s)
}.

(** ** The demonstration page

    The script of the page that drives the class: [generatePattern] writes
    every pixel once per frame, [initialize] builds the instance and starts
    the animation. *)

(** The JavaScript remainder [a % b] on integers: the sign of the result is
    the sign of [a]. *)
Definition js_rem (a b : Z) : Z := Z.rem a b.

(** The inner loop of [generatePattern] for the column [x], with [n]
    iterations left from row [y]; the loop returns the seed it ends with.
    [pixelGL.height] does not change during the loop. *)
Fixpoint generatePattern_rows (n : nat) (x y seed : Z) : M Z :=
  match n with
  | O => ret seed
  | S n' =>
      let seed := seed + (if truthy (js_rem y 7) then 61 else 127) in
      let red := js_rem seed 200 in
      let seed := seed + (if truthy (js_rem y 13) then 89 else 521) in
      let green := js_rem seed 200 in
      let seed := seed + (if truthy (js_rem x 17) then 107 else 607) in
      let blue := js_rem seed 200 in
      let alpha := 255 in
      run setPixel x y red green blue alpha in
      generatePattern_rows n' x (y + 1) seed
  end.

(** The outer loop, with [n] iterations left from column [x]. *)
Fixpoint generatePattern_columns (n : nat) (x seed : Z) : M unit :=
  match n with
  | O => ret tt
  | S n' =>
      let! s := self in
      let! seed := generatePattern_rows (Z.to_nat (height s)) x 0 seed in
      generatePattern_columns n' (x + 1) seed
  end.

(** [generatePattern], given the number [NUM.randomInt(0, 8388607)]
    returns. *)
Definition generatePattern (seed : Z) : M unit :=
  let! s := self in
  generatePattern_columns (Z.to_nat (width s)) 0 seed.

Section Page.

Variable H : host.

(** The [initialize] function of the page, run on the object [new] hands to
    the constructor; the result says whether [requestAnimationFrame(update)]
    was called. *)
Definition page_initialize : M bool :=
  run constructor H "canvas" 960 640 in
  let! pixelGL := self in
  run (if safe pixelGL then
         let! _ :=
           initialize H "shaders/pixelGL.vert" "shaders/pixelGL.frag" in
         ret tt
       else ret tt) in
  let! pixelGL := self in
  if initialized pixelGL then ret true else ret false.

End Page.

(** ** More vocabulary of the statements *)

(** A value a [Uint8Array] element can hold. *)
Definition byte (b : Z) : Prop := 0 <= b <= 255.

(** The instance has a buffer and every element of it is a byte. *)
Definition holds_bytes (s : PixelGL) : Prop :=
  exists d, data s = Some d /\ Forall byte d.

(** The record [getPixel x y] builds from a buffer [d] of a surface [w]
    wide. *)
Definition pixel_of (w : Z) (d : list Z) (x y : Z) : pixel :=
  let index := ((y * w) + x) * 4 in
  {| px := x; py := y;
     red := typed_get d (index + 0); green := typed_get d (index + 1);
     blue := typed_get d (index + 2); alpha := typed_get d (index + 3) |}.

(** The four channels of a pixel of a pattern frame: an opaque colour whose
    components are below 200. *)
Definition pattern_pixel (p : pixel) : Prop :=
  (exists r, red p = Some r /\ 0 <= r < 200)
  /\ (exists g, green p = Some g /\ 0 <= g < 200)
  /\ (exists b, blue p = Some b /\ 0 <= b < 200)
  /\ alpha p = Some 255.

(** The calls of a list are all [render] calls. *)
Definition is_render (c : call) : Prop :=
  match c with
  | CallRender _ _ => True
  | _ => False
  end.

(** The number of draw calls the context has seen (0 without a context). *)
Definition draws (s : PixelGL) : nat :=
  match gl s with
  | Some g => draw_calls g
  | None => 0
  end.

(** * Properties *)

(** ** Typed-array lemmas *)

Lemma to_uint8_byte (v : Z) : 0 <= v <= 255 -> to_uint8 v = v.
Proof. intros Hv. unfold to_uint8. apply Z.mod_small. lia. Qed.

Lemma to_uint8_range (v : Z) : 0 <= to_uint8 v <= 255.
Proof. unfold to_uint8. pose proof (Z.mod_pos_bound v 256). lia. Qed.

Lemma typed_set_length (a : list Z) (i v : Z) :
  length (typed_set a i v) = length a.
Proof.
  unfold typed_set. destruct (0 <=? i); [apply length_insert | reflexivity].
Qed.

Lemma typed_get_set_eq (a : list Z) (i v : Z) :
  0 <= i < Z.of_nat (length a) ->
  typed_get (typed_set a i v) i = Some (to_uint8 v).
Proof.
  intros [Hlo Hhi]. unfold typed_get, typed_set.
  rewrite (proj2 (Z.leb_le 0 i) Hlo).
  apply list_lookup_insert_eq. lia.
Qed.

Lemma typed_get_set_ne (a : list Z) (i j v : Z) :
  i <> j -> typed_get (typed_set a i v) j = typed_get a j.
Proof.
  intros Hne. unfold typed_get, typed_set.
  destruct (Z.leb_spec 0 j) as [Hj|Hj]; [|reflexivity].
  destruct (Z.leb_spec 0 i) as [Hi|Hi]; [|reflexivity].
  apply list_lookup_insert_ne. lia.
Qed.

(** An in-bounds pixel has its four bytes inside the buffer. *)
Lemma index_in_bounds (w h x y : Z) :
  0 <= x < w -> 0 <= y < h ->
  0 <= (y * w + x) * 4 /\ (y * w + x) * 4 + 3 < w * h * 4.
Proof.
  intros Hx Hy.
  assert (0 <= y * w) by (apply Z.mul_nonneg_nonneg; lia).
  assert (0 <= (h - 1 - y) * w) by (apply Z.mul_nonneg_nonneg; lia).
  split; lia.
Qed.

(** ** Pixel accessors on an instance that has a buffer *)

Lemma same_but_data_refl (s : PixelGL) : same_but_data s s.
Proof. reflexivity. Qed.

Lemma same_but_data_fields (s s' : PixelGL) :
  same_but_data s s' ->
  width s' = width s /\ height s' = height s /\ gl s' = gl s
  /\ safe s' = safe s /\ initialized s' = initialized s
  /\ console s' = console s.
Proof.
  unfold same_but_data. intros E.
  repeat split.
  - apply (f_equal width) in E. exact E.
  - apply (f_equal height) in E. exact E.
  - apply (f_equal gl) in E. exact E.
  - apply (f_equal safe) in E. exact E.
  - apply (f_equal initialized) in E. exact E.
  - apply (f_equal console) in E. exact E.
Qed.

Lemma data_store_run (s : PixelGL) (d : list Z) (i v : Z) :
  data s = Some d ->
  data_store i v s = (Normal tt, set_data (Some (typed_set d i v)) s).
Proof.
  intros Hd.
  cbv beta iota delta [data_store bind this_data self ret assign].
  rewrite Hd. reflexivity.
Qed.

Lemma data_load_run (s : PixelGL) (d : list Z) (i : Z) :
  data s = Some d -> data_load i s = (Normal (typed_get d i), s).
Proof.
  intros Hd.
  cbv beta iota delta [data_load bind this_data self ret].
  rewrite Hd. reflexivity.
Qed.

Lemma setPixel_run (s : PixelGL) (d : list Z) (x y r g b a : Z) :
  data s = Some d ->
  setPixel x y r g b a s
  = (Normal tt,
     set_data (Some (written d ((y * width s + x) * 4) r g b a)) s).
Proof.
  intros Hd. unfold setPixel, written.
  unfold bind at 1. unfold self at 1.
  unfold bind at 1. rewrite (data_store_run s d _ _ Hd).
  unfold bind at 1. erewrite data_store_run by reflexivity.
  unfold bind at 1. erewrite data_store_run by reflexivity.
  erewrite data_store_run by reflexivity.
  reflexivity.
Qed.

Lemma getPixel_run (s : PixelGL) (d : list Z) (x y : Z) :
  data s = Some d ->
  getPixel x y s
  = (Normal (let index := (y * width s + x) * 4 in
             {| px := x; py := y;
                red := typed_get d (index + 0);
                green := typed_get d (index + 1);
                blue := typed_get d (index + 2);
                alpha := typed_get d (index + 3) |}), s).
Proof.
  intros Hd. unfold getPixel.
  unfold bind at 1. unfold self at 1.
  unfold bind at 1. rewrite (data_load_run s d _ Hd).
  unfold bind at 1. rewrite (data_load_run s d _ Hd).
  unfold bind at 1. rewrite (data_load_run s d _ Hd).
  unfold bind at 1. rewrite (data_load_run s d _ Hd).
  reflexivity.
Qed.

Lemma written_read (d : list Z) (index r g b a : Z) :
  0 <= index -> index + 3 < Z.of_nat (length d) ->
  typed_get (written d index r g b a) (index + 0) = Some (to_uint8 r)
  /\ typed_get (written d index r g b a) (index + 1) = Some (to_uint8 g)
  /\ typed_get (written d index r g b a) (index + 2) = Some (to_uint8 b)
  /\ typed_get (written d index r g b a) (index + 3) = Some (to_uint8 a).
Proof.
  intros Hlo Hhi. unfold written. repeat split.
  - rewrite !typed_get_set_ne by lia. apply typed_get_set_eq. lia.
  - rewrite !typed_get_set_ne by lia. apply typed_get_set_eq.
    rewrite typed_set_length. lia.
  - rewrite !typed_get_set_ne by lia. apply typed_get_set_eq.
    rewrite !typed_set_length. lia.
  - apply typed_get_set_eq. rewrite !typed_set_length. lia.
Qed.

(** What [getPixel] reads back after [setPixel] at an in-bounds pixel, for
    any integer channel arguments. *)
Lemma setPixel_then_getPixel (s : PixelGL) (d : list Z) (x y r g b a : Z) :
  data s = Some d ->
  Z.of_nat (length d) = width s * height s * 4 ->
  0 <= x < width s -> 0 <= y < height s ->
  exists s',
    setPixel x y r g b a s = (Normal tt, s')
    /\ getPixel x y s'
       = (Normal {| px := x; py := y;
                    red := Some (to_uint8 r); green := Some (to_uint8 g);
                    blue := Some (to_uint8 b); alpha := Some (to_uint8 a) |},
          s').
Proof.
  intros Hd Hlen Hx Hy.
  destruct (index_in_bounds (width s) (height s) x y Hx Hy) as [Hlo Hhi].
  eexists. split; [apply setPixel_run, Hd|].
  erewrite getPixel_run by reflexivity. cbn [width set_data].
  destruct (written_read d ((y * width s + x) * 4) r g b a)
    as (-> & -> & -> & ->); [lia | lia | reflexivity].
Qed.

(** ** The invariant of a constructed instance *)

Section Keeps.

Context {A B : Type} (P : PixelGL -> Prop).

Lemma keeps_ret (a : A) : keeps P (ret a).
Proof. intros s Hs. exact Hs. Qed.

Lemma keeps_throw (e : js_error) : keeps P (@throw A e).
Proof. intros s Hs. exact Hs. Qed.

Lemma keeps_await (p : completion A) : keeps P (await p).
Proof. intros s Hs. exact Hs. Qed.

Lemma keeps_self : keeps P self.
Proof. intros s Hs. exact Hs. Qed.

Lemma keeps_assign (f : PixelGL -> PixelGL) :
  (forall s, P s -> P (f s)) -> keeps P (assign f).
Proof. intros Hf s Hs. apply Hf, Hs. Qed.

Lemma keeps_bind (m : M A) (k : A -> M B) :
  keeps P m -> (forall a, keeps P (k a)) -> keeps P (bind m k).
Proof.
  intros Hm Hk s Hs. unfold bind.
  specialize (Hm s Hs). destruct (m s) as [[a|e] s']; cbn in *.
  - apply Hk, Hm.
  - exact Hm.
Qed.

End Keeps.

#[export] Instance built_stable (w h : Z) : Stable (built w h).
Proof.
  split.
  - intros c s Hs. exact Hs.
  - intros f g s Hf Hg (Hw & Hh & (g' & Hg' & Hcw & Hch) & Hd).
    rewrite Hg in Hg'. injection Hg' as <-.
    destruct (Hf g) as [Ew Eh].
    repeat split; try assumption.
    exists (f g). cbn. repeat split; congruence.
  - intros d d' s Hd Hlen (Hw & Hh & Hg & d0 & Hd0 & Hlen0).
    repeat split; try assumption.
    exists d'. split; [reflexivity|].
    rewrite Hlen. congruence.
  - intros d e s Hs. exact Hs.
  - intros p s Hs. exact Hs.
  - intros b s Hs. exact Hs.
Qed.

#[export] Instance safe_stable : Stable (fun s => safe s = true).
Proof. split; intros; assumption. Qed.

Section KeepsStable.

Context (P : PixelGL -> Prop) {HP : Stable P}.

Lemma keeps_console_error (d : diagnostic) : keeps P (console_error d).
Proof. apply keeps_assign. intros s. apply stable_console. Qed.

Lemma keeps_this_gl : keeps P this_gl.
Proof.
  apply keeps_bind; [apply keeps_self|].
  intros s. destruct (gl s); [apply keeps_ret | apply keeps_throw].
Qed.

Lemma keeps_this_data : keeps P this_data.
Proof.
  apply keeps_bind; [apply keeps_self|].
  intros s. destruct (data s); [apply keeps_ret | apply keeps_throw].
Qed.

Lemma keeps_gl_call (f : gl_context -> gl_context) :
  keeps_canvas f -> keeps P (gl_call f).
Proof.
  intros Hf s Hs. unfold gl_call, this_gl.
  cbv beta iota delta [bind self ret assign throw].
  destruct (gl s) as [g|] eqn:Hg; cbn [snd].
  - apply stable_gl; assumption.
  - exact Hs.
Qed.

Lemma keeps_data_store (i v : Z) : keeps P (data_store i v).
Proof.
  intros s Hs. unfold data_store, this_data.
  cbv beta iota delta [bind self ret assign throw].
  destruct (data s) as [d|] eqn:Hd; cbn [snd]; [|exact Hs].
  apply (stable_data d); [exact Hd | apply typed_set_length | exact Hs].
Qed.

Lemma keeps_data_load (i : Z) : keeps P (data_load i).
Proof.
  apply keeps_bind; [apply keeps_this_data | intros d; apply keeps_ret].
Qed.

Lemma keeps_render_stats (d e : Qc) :
  keeps P (assign (set_render_stats d e)).
Proof. apply keeps_assign. intros s. apply stable_render_stats. Qed.

Lemma keeps_set_program (p : option program) :
  keeps P (assign (set_program p)).
Proof. apply keeps_assign. intros s. apply stable_program. Qed.

Lemma keeps_set_initialized (b : bool) :
  keeps P (assign (set_initialized b)).
Proof. apply keeps_assign. intros s. apply stable_initialized. Qed.

End KeepsStable.

Create HintDb keeps discriminated.

#[export] Hint Resolve keeps_ret keeps_throw keeps_await keeps_self
  keeps_console_error keeps_this_gl keeps_this_data keeps_data_store
  keeps_data_load keeps_render_stats keeps_set_program
  keeps_set_initialized : keeps.

(** One step of a proof that a method keeps a stable property: a monad rule,
    a case split on what the method branches on, or a leaf from the hint
    base. *)
Ltac keeps_step :=
  lazymatch goal with
  | |- keeps _ (bind _ _) => apply keeps_bind; [|intros ?]
  | |- keeps _ (gl_call _) =>
      apply keeps_gl_call; [assumption | intros ?; split; reflexivity]
  | |- keeps _ (match ?x with _ => _ end) => destruct x
  | |- keeps _ (if ?b then _ else _) => destruct b
  | |- keeps _ _ => solve [auto with keeps]
  end.

Ltac keeps_tac := repeat keeps_step.

Section MethodsKeep.

Variable H : host.
Context (P : PixelGL -> Prop) {HP : Stable P}.

Lemma keeps_setPixel (x y r g b a : Z) :
  keeps P (setPixel x y r g b a).
Proof. unfold setPixel. keeps_tac. Qed.

Lemma keeps_getPixel (x y : Z) : keeps P (getPixel x y).
Proof. unfold getPixel. keeps_tac. Qed.

Lemma keeps_loadPixelData_loop (source : list Z) (n : nat) :
  forall i, keeps P (loadPixelData_loop n i source).
Proof.
  induction n as [|n IH]; intros i; cbn [loadPixelData_loop].
  - keeps_tac.
  - apply keeps_bind; [keeps_tac | intros _; apply IH].
Qed.

Lemma keeps_loadPixelData (source : list Z) :
  keeps P (loadPixelData source).
Proof.
  unfold loadPixelData.
  apply keeps_bind; [keeps_tac|]. intros d.
  destruct (negb _); [keeps_tac | apply keeps_loadPixelData_loop].
Qed.

Lemma keeps_render (renderBegin renderFinish : Qc) :
  keeps P (render renderBegin renderFinish).
Proof. unfold render, updateTexture. keeps_tac. Qed.

Lemma keeps_compileShader (shaderSource : string) (shaderType : Z) :
  keeps P (compileShader H shaderSource shaderType).
Proof. unfold compileShader. keeps_tac. Qed.

Lemma keeps_compileShaders (v f : string) :
  keeps P (compileShaders H v f).
Proof.
  unfold compileShaders.
  apply keeps_bind; [keeps_tac|]. intros shaderRequests.
  destruct (check_responses _ _); [keeps_tac|].
  destruct shaderRequests as [|r0 [|r1 [|r2 rest]]]; try solve [keeps_tac].
  do 2 (apply keeps_bind; [keeps_tac|]; intros ?).
  apply keeps_bind; [keeps_tac|]. intros _.
  apply keeps_bind; [apply keeps_compileShader|]. intros vs.
  apply keeps_bind; [keeps_tac|]. intros _.
  apply keeps_bind; [apply keeps_compileShader|]. intros fs.
  keeps_tac.
Qed.

Lemma keeps_createShaderProgram (v f : string) :
  keeps P (createShaderProgram H v f).
Proof.
  unfold createShaderProgram.
  apply keeps_bind; [apply keeps_compileShaders|]. intros shaders.
  keeps_tac.
Qed.

Lemma keeps_createOrthographicMatrix :
  keeps P createOrthographicMatrix.
Proof. unfold createOrthographicMatrix. keeps_tac. Qed.

Lemma keeps_initialize (v f : string) :
  keeps P (initialize H v f).
Proof.
  unfold initialize.
  apply keeps_bind; [apply keeps_createShaderProgram|]. intros p.
  apply keeps_bind; [keeps_tac|]. intros _.
  destruct p as [p|]; [|keeps_tac].
  do 4 (apply keeps_bind; [keeps_tac|]; intros _).
  apply keeps_bind; [apply keeps_createOrthographicMatrix|]. intros m.
  keeps_tac.
Qed.

Lemma keeps_perform (c : call) : keeps P (perform H c).
Proof.
  destruct c; cbn [perform].
  - apply keeps_bind; [apply keeps_initialize | intros ?; apply keeps_ret].
  - apply keeps_render.
  - apply keeps_setPixel.
  - apply keeps_bind; [apply keeps_getPixel | intros ?; apply keeps_ret].
  - apply keeps_loadPixelData.
Qed.

Lemma stable_run_calls (calls : list call) :
  forall s, P s -> P (run_calls H calls s).
Proof.
  induction calls as [|c calls IH]; intros s Hs; cbn.
  - exact Hs.
  - apply IH, keeps_perform, Hs.
Qed.

End MethodsKeep.

(** ** The constructor *)

Lemma construct_safe (H : host) (canvasID : string) (w h : Z) :
  safe (snd (construct H canvasID w h)) = true ->
  fst (construct H canvasID w h) = Normal tt
  /\ built w h (snd (construct H canvasID w h))
  /\ initialized (snd (construct H canvasID w h)) = false
  /\ console (snd (construct H canvasID w h)) = []
  /\ data (snd (construct H canvasID w h))
     = Some (repeat 0 (Z.to_nat (w * h * 4)))
  /\ 0 <= w * h * 4.
Proof.
  unfold construct, constructor, createEmptyTexture, gl_call, this_gl,
    console_error, new_Uint8Array.
  cbv beta iota delta [bind assign await ret self throw].
  destruct (document_querySelector H _) as [[element|]|e]; cbn;
    try discriminate.
  destruct (canvas_getContext H element) as [[|]|e]; cbn; try discriminate.
  destruct (Z.ltb_spec (w * h * 4) 0) as [Hneg|Hpos]; cbn; try discriminate.
  destruct (typed_array_max_length H <? w * h * 4); cbn; try discriminate.
  intros _. repeat split; try assumption.
  - eexists. repeat split.
  - eexists. split; [reflexivity|].
    rewrite repeat_length. apply Z2Nat.id. exact Hpos.
Qed.

Section Instances.

Variable H : host.
Variables (canvasID : string) (w h : Z).
Hypothesis Hsafe : safe (snd (construct H canvasID w h)) = true.

Lemma built_instance (calls : list call) :
  built w h (instance H canvasID w h calls).
Proof.
  unfold instance. apply stable_run_calls; [apply built_stable|].
  apply construct_safe, Hsafe.
Qed.

Lemma safe_instance (calls : list call) :
  safe (instance H canvasID w h calls) = true.
Proof.
  unfold instance.
  apply (stable_run_calls H (fun s => safe s = true)), Hsafe.
Qed.

End Instances.

(** ** [loadPixelData] *)

Lemma loadPixelData_loop_run (source : list Z) (n : nat) :
  forall (k : nat) (s : PixelGL) (d : list Z),
    data s = Some d ->
    (k + n = length d)%nat ->
    length source = length d ->
    exists s',
      loadPixelData_loop n (Z.of_nat k) source s = (Normal tt, s')
      /\ same_but_data s s'
      /\ data s' = Some (take k d ++ map to_uint8 (drop k source))%list.
Proof.
  induction n as [|n IH]; intros k s d Hd Hk Hlen; cbn [loadPixelData_loop].
  - exists s. split; [reflexivity|]. split; [apply same_but_data_refl|].
    rewrite Hd. f_equal.
    rewrite drop_ge by lia. rewrite take_ge by lia.
    cbn. rewrite app_nil_r. reflexivity.
  - assert (Hks : (k < length source)%nat) by lia.
    destruct (lookup_lt_is_Some_2 source k Hks) as [v Hv].
    unfold bind at 1. rewrite (data_store_run s d _ _ Hd).
    replace (Z.of_nat k + 1) with (Z.of_nat (S k)) by lia.
    destruct (IH (S k) (set_data (Some (typed_set d (Z.of_nat k)
                                          (array_get source (Z.of_nat k)))) s)
                 (typed_set d (Z.of_nat k) (array_get source (Z.of_nat k))))
      as (s' & Hrun & Hsame & Hdata).
    + reflexivity.
    + rewrite typed_set_length. lia.
    + rewrite typed_set_length. exact Hlen.
    + exists s'. split; [exact Hrun|]. split.
      * unfold same_but_data in *. rewrite Hsame. reflexivity.
      * rewrite Hdata. f_equal.
        assert (Hget : array_get source (Z.of_nat k) = v).
        { unfold array_get, typed_get.
          rewrite (proj2 (Z.leb_le 0 (Z.of_nat k))) by lia.
          rewrite Nat2Z.id, Hv. reflexivity. }
        rewrite Hget. unfold typed_set.
        rewrite (proj2 (Z.leb_le 0 (Z.of_nat k))) by lia.
        rewrite Nat2Z.id.
        rewrite (take_S_r _ _ (to_uint8 v))
          by (apply list_lookup_insert_eq; lia).
        rewrite take_insert_ge by lia.
        rewrite (drop_S source v k Hv). cbn [map].
        rewrite <- app_assoc. reflexivity.
Qed.

Lemma map_to_uint8_bytes (source : list Z) :
  Forall (fun b => 0 <= b <= 255) source -> map to_uint8 source = source.
Proof.
  induction 1 as [|b source Hb _ IH]; cbn; [reflexivity|].
  rewrite to_uint8_byte by exact Hb. rewrite IH. reflexivity.
Qed.

Lemma loadPixelData_mismatch (s : PixelGL) (d source : list Z) :
  data s = Some d ->
  length source <> length d ->
  loadPixelData source s
  = (Normal tt, set_console (console s ++ [UnableToLoadPixelData])%list s).
Proof.
  intros Hd Hne. unfold loadPixelData, this_data, console_error.
  cbv beta iota delta [bind self ret assign].
  rewrite Hd. cbv beta iota.
  destruct (Z.eqb_spec (Z.of_nat (length source)) (Z.of_nat (length d)))
    as [E|E]; [lia|]. reflexivity.
Qed.

Lemma loadPixelData_match (s : PixelGL) (d source : list Z) :
  data s = Some d ->
  length source = length d ->
  exists s',
    loadPixelData source s = (Normal tt, s')
    /\ same_but_data s s'
    /\ data s' = Some (map to_uint8 source).
Proof.
  intros Hd Hlen.
  destruct (loadPixelData_loop_run source (length d) 0 s d Hd)
    as (s' & Hrun & Hsame & Hdata); [lia | exact Hlen |].
  exists s'. split; [|split; [exact Hsame | exact Hdata]].
  unfold loadPixelData, this_data.
  cbv beta iota delta [bind self ret].
  rewrite Hd. cbv beta iota.
  rewrite Hlen, Z.eqb_refl. exact Hrun.
Qed.

(** ** Initialization *)

(** What [fetch H uri = Normal r] says of the host: the fetch resolves, and
    [text()] on the response resolves with the body. *)
Lemma fetch_inv (H : host) (uri : string) (r : response) :
  fetch H uri = Normal r ->
  exists raw,
    window_fetch H uri = Normal raw
    /\ Response.status raw = status r
    /\ Response.statusText raw = statusText r
    /\ Response.text raw = Normal (text r).
Proof.
  unfold fetch. destruct (window_fetch H uri) as [raw|e]; [|discriminate].
  destruct (Response.text raw) as [body|e] eqn:Hbody; [|discriminate].
  intros [= <-]. exists raw. repeat split. exact Hbody.
Qed.

(** Unfolds a method of the initialization down to the host calls. *)
Ltac unfold_methods :=
  unfold all_steps_succeed, fetched, compiles, links, fetch;
  unfold initialize, createShaderProgram, compileShaders, compileShader,
    createOrthographicMatrix, render, updateTexture, gl_call, this_gl,
    console_error;
  cbv beta iota delta [bind assign await ret self throw].

Ltac compute_methods := cbn -[Z.eqb VERTEX_SHADER FRAGMENT_SHADER app].

(** Closes a goal that says the console grew by some diagnostics. *)
Ltac console_grew :=
  intros _; rewrite <- ?app_assoc;
  first [ eexists [_]; reflexivity
        | eexists [_; _]; reflexivity
        | eexists [_; _; _]; reflexivity
        | eexists [_; _; _; _]; reflexivity ].

(** Splits on every outcome the host can give to one [initialize] call
    once both fetches have resolved: the two bodies, the two statuses, the
    two compilations, the link. *)
Ltac host_cases H rv rf :=
  destruct (Response.text rv) as [tv|] eqn:?;
  destruct (Response.text rf) as [tf|] eqn:?;
  compute_methods; try reflexivity;
  destruct (Response.status rv =? 200) eqn:?; compute_methods;
  try reflexivity;
  destruct (Response.status rf =? 200) eqn:?; compute_methods;
  try reflexivity;
  try (destruct (gl_compile_status H VERTEX_SHADER tv) eqn:?;
       compute_methods; try reflexivity);
  try (destruct (gl_compile_status H FRAGMENT_SHADER tf) eqn:?;
       compute_methods; try reflexivity);
  try (destruct (gl_link_status H _) eqn:?; compute_methods;
       try reflexivity).

(** The flag after [initialize]: set when the instance has a context and
    the five steps succeed, and otherwise what it was. *)
Lemma initialize_flag (H : host) (v f : string) (s : PixelGL) :
  initialized (snd (initialize H v f s))
  = match gl s with
    | Some _ => all_steps_succeed H v f
    | None => false
    end || initialized s.
Proof.
  unfold_methods.
  destruct s as [sf ini cv [g|] wd ht pc bc dt tx pr ld le cs];
    (destruct (window_fetch H v) as [rv|ev];
     [destruct (window_fetch H f) as [rf|ef]|]);
    compute_methods; try reflexivity;
    try solve [host_cases H rv rf];
    destruct (Response.text rv); compute_methods; try reflexivity;
    destruct (Response.status rv =? 200); reflexivity.
Qed.

(** The result of [initialize] on an instance that has a context, when both
    fetches resolve: [undefined] after a success, and after a failure [null]
    with diagnostics of which the last says that no program was created. *)
Lemma initialize_result (H : host) (v f : string) (s : PixelGL) :
  (exists g, gl s = Some g) -> resolves H v -> resolves H f ->
  fst (initialize H v f s)
  = Normal (if all_steps_succeed H v f then Undefined else Null)
  /\ (all_steps_succeed H v f = false ->
      exists ds, console (snd (initialize H v f s))
                 = (console s ++ ds ++ [ErrorCreatingShaderProgram])%list).
Proof.
  intros [g Hg] [rv Hv] [rf Hf].
  destruct (fetch_inv H v rv Hv) as (wv & Hwv & Hsv & _ & Htv).
  destruct (fetch_inv H f rf Hf) as (wf & Hwf & Hsf & _ & Htf).
  unfold_methods. rewrite Hwv, Hwf.
  destruct s as [sf ini cv g' wd ht pc bc dt tx pr ld le cs].
  cbn in Hg. subst g'. compute_methods.
  rewrite ?Htv, ?Htf, ?Hsv, ?Hsf. compute_methods.
  destruct (status rv =? 200) eqn:?; compute_methods;
    [|split; [reflexivity | console_grew]].
  destruct (status rf =? 200) eqn:?; compute_methods;
    [|split; [reflexivity | console_grew]].
  destruct (gl_compile_status H VERTEX_SHADER (text rv)) eqn:?;
    destruct (gl_compile_status H FRAGMENT_SHADER (text rf)) eqn:?;
    compute_methods; try (split; [reflexivity | console_grew]).
  destruct (gl_link_status H _) eqn:?; compute_methods.
  - split; [reflexivity | discriminate].
  - split; [reflexivity | console_grew].
Qed.

Lemma all_steps_succeed_true (H : host) (v f : string) :
  all_steps_succeed H v f = true <->
  exists rv rf,
    fetch H v = Normal rv /\ status rv = 200
    /\ fetch H f = Normal rf /\ status rf = 200
    /\ gl_compile_status H VERTEX_SHADER (text rv) = true
    /\ gl_compile_status H FRAGMENT_SHADER (text rf) = true
    /\ gl_link_status H
         {| attached :=
              [ {| shader_type := VERTEX_SHADER; shader_source := text rv |};
                {| shader_type := FRAGMENT_SHADER;
                   shader_source := text rf |} ] |} = true.
Proof.
  unfold all_steps_succeed, fetched, compiles, links. split.
  - destruct (fetch H v) as [rv|]; [|discriminate].
    destruct (fetch H f) as [rf|]; [|rewrite andb_false_r; discriminate].
    intros E. repeat (apply andb_true_iff in E as [E ?]).
    exists rv, rf. repeat split; try assumption; apply Z.eqb_eq; assumption.
  - intros (rv & rf & -> & Ev & -> & Ef & -> & -> & ->).
    rewrite Ev, Ef. reflexivity.
Qed.

Lemma render_run (s : PixelGL) (g : gl_context) (renderBegin renderFinish : Qc) :
  gl s = Some g ->
  fst (render renderBegin renderFinish s) = Normal tt.
Proof.
  intros Hg. unfold_methods. rewrite Hg. cbv beta iota. reflexivity.
Qed.

Lemma construct_cases (H : host) (canvasID : string) (w h : Z) :
  let s := snd (construct H canvasID w h) in
  match document_querySelector H ("#" ++ canvasID) with
  | Throw e =>
      fst (construct H canvasID w h) = Throw e
      /\ safe s = false /\ console s = [] /\ gl s = None /\ data s = None
  | Normal None =>
      fst (construct H canvasID w h) = Normal tt
      /\ safe s = false /\ console s = [ErrorFindingCanvas canvasID]
      /\ gl s = None /\ data s = None
  | Normal (Some element) =>
      match canvas_getContext H element with
      | Throw e =>
          fst (construct H canvasID w h) = Throw e
          /\ safe s = false /\ console s = []
          /\ gl s = None /\ data s = None
      | Normal false =>
          fst (construct H canvasID w h) = Normal tt
          /\ safe s = false /\ console s = [ErrorGettingContext canvasID]
          /\ gl s = None /\ data s = None
      | Normal true =>
          if (0 <=? w * h * 4) && (w * h * 4 <=? typed_array_max_length H)
          then
            fst (construct H canvasID w h) = Normal tt
            /\ safe s = true /\ console s = []
          else
            fst (construct H canvasID w h)
            = Throw (RangeError "Invalid typed array length")
            /\ safe s = false /\ console s = [] /\ data s = None
      end
  end.
Proof.
  unfold construct, constructor, createEmptyTexture, gl_call, this_gl,
    console_error, new_Uint8Array.
  cbv beta iota delta [bind assign await ret self throw].
  destruct (document_querySelector H _) as [[element|]|e]; cbn;
    [|repeat split..].
  destruct (canvas_getContext H element) as [[|]|e]; cbn;
    [|repeat split..].
  destruct (Z.ltb_spec (w * h * 4) 0) as [Hneg|Hpos];
    destruct (Z.leb_spec 0 (w * h * 4)) as [Hpos'|Hneg']; try lia; cbn;
    [repeat split|].
  destruct (Z.ltb_spec (typed_array_max_length H) (w * h * 4)) as [Hbig|Hfits];
    destruct (Z.leb_spec (w * h * 4) (typed_array_max_length H))
      as [Hfits'|Hbig']; try lia; cbn; repeat split.
Qed.

Lemma construct_completes (H : host) (canvasID : string) (w h : Z) :
  (exists c, document_querySelector H ("#" ++ canvasID) = Normal c) ->
  (forall element,
     document_querySelector H ("#" ++ canvasID) = Normal (Some element) ->
     exists supported, canvas_getContext H element = Normal supported) ->
  0 <= w * h * 4 <= typed_array_max_length H ->
  fst (construct H canvasID w h) = Normal tt
  /\ (safe (snd (construct H canvasID w h)) = false ->
      exists d, console (snd (construct H canvasID w h)) = [d]).
Proof.
  intros [c Hc] Hctx Hsize.
  pose proof (construct_cases H canvasID w h) as Hcases. cbv zeta in Hcases.
  rewrite Hc in Hcases. destruct c as [element|].
  - destruct (Hctx element Hc) as [supported Hs]. rewrite Hs in Hcases.
    destruct supported.
    + destruct (Z.leb_spec 0 (w * h * 4)); [|lia].
      destruct (Z.leb_spec (w * h * 4) (typed_array_max_length H)); [|lia].
      cbn [andb] in Hcases. destruct Hcases as (-> & -> & _).
      split; [reflexivity | discriminate].
    + destruct Hcases as (-> & _ & -> & _).
      split; [reflexivity | intros _; eexists; reflexivity].
  - destruct Hcases as (-> & _ & -> & _).
    split; [reflexivity | intros _; eexists; reflexivity].
Qed.

(** The outcome of [initialize] on an instance that has a context: a
    rejection leaves the instance as it was; without one the call returns
    [undefined] after a success and [null] after a failure, with
    diagnostics of which the last says that no program was created. *)
Lemma initialize_outcome (H : host) (v f : string) (s : PixelGL) :
  (exists g, gl s = Some g) ->
  if rejects H v f then
    exists e, initialize H v f s = (Throw e, s)
  else
    fst (initialize H v f s)
    = Normal (if all_steps_succeed H v f then Undefined else Null)
    /\ (all_steps_succeed H v f = false ->
        exists ds, console (snd (initialize H v f s))
                   = (console s ++ ds ++ [ErrorCreatingShaderProgram])%list).
Proof.
  intros [g Hg]. unfold rejects, readable. unfold_methods.
  destruct s as [sf ini cv g' wd ht pc bc dt tx pr ld le cs].
  cbn in Hg. subst g'.
  destruct (window_fetch H v) as [rv|ev];
    [destruct (window_fetch H f) as [rf|ef]|];
    compute_methods; try (eexists; reflexivity).
  destruct (Response.text rv) as [tv|] eqn:?;
    destruct (Response.text rf) as [tf|] eqn:?;
    compute_methods;
    destruct (Response.status rv =? 200) eqn:?;
    destruct (Response.status rf =? 200) eqn:?;
    compute_methods;
    try (eexists; reflexivity);
    try (split; [reflexivity | console_grew]).
  destruct (gl_compile_status H VERTEX_SHADER tv) eqn:?;
    destruct (gl_compile_status H FRAGMENT_SHADER tf) eqn:?;
    compute_methods; try (split; [reflexivity | console_grew]).
  destruct (gl_link_status H _) eqn:?; compute_methods.
  - split; [reflexivity | discriminate].
  - split; [reflexivity | console_grew].
Qed.

(** The loop over the responses of [compileShaders], when the first has
    status 200 and the second has not: whether or not a body could be
    read. *)
Lemma compileShaders_bad_status (H : host) (v f : string)
    (rv rf : Response.t) (s : PixelGL) :
  window_fetch H v = Normal rv -> Response.status rv = 200 ->
  window_fetch H f = Normal rf -> Response.status rf <> 200 ->
  compileShaders H v f s
  = (Normal None,
     set_console
       (console s
        ++ [ErrorRetrievingSource v (Response.statusText rf)
              (Response.status rf)])%list
       s).
Proof.
  intros Hv Hsv Hf Hsf. unfold_methods. rewrite Hv, Hf.
  cbn [promise_all check_responses]. rewrite Hsv.
  destruct (Z.eqb_spec (Response.status rf) 200) as [E|E]; [contradiction|].
  reflexivity.
Qed.

(** ** Matrix Builder *)

Lemma createOrthographicMatrix_run (s : PixelGL) (g : gl_context) :
  gl s = Some g ->
  createOrthographicMatrix s
  = (Normal
       (map fround
          [ of_Z 2 / (of_Z (canvas_width g) - of_Z 0);
            of_Z 0; of_Z 0; of_Z 0;
            of_Z 0; of_Z 2 / (of_Z 0 - of_Z (canvas_height g));
            of_Z 0; of_Z 0;
            of_Z 0; of_Z 0; of_Z 2 / (of_Z (- 1) - of_Z 1); of_Z 0;
            (of_Z 0 + of_Z (canvas_width g))
            / (of_Z 0 - of_Z (canvas_width g));
            (of_Z (canvas_height g) + of_Z 0)
            / (of_Z (canvas_height g) - of_Z 0);
            (of_Z (- 1) + of_Z 1) / (of_Z (- 1) - of_Z 1);
            of_Z 1 ]%js), s).
Proof.
  intros Hg. unfold createOrthographicMatrix, this_gl.
  cbv beta iota delta [bind self ret].
  rewrite Hg. reflexivity.
Qed.

(** Proves a fact on closed matrices by evaluating the float operations. *)
Ltac matrix_eq := vm_compute; reflexivity.

(** Splits a 16-element matrix into its elements. *)
Ltac split_matrix m :=
  repeat (destruct m as [|? m]; try discriminate).

(** The first twelve elements are those of the source, as a [Float32Array]
    holds them. *)
Lemma translateMatrix_upper (m : mat4) (tx ty : number) :
  length m = 16%nat ->
  take 12 (translateMatrix m tx ty) = map fround (take 12 m).
Proof. intros Hlen. split_matrix m. reflexivity. Qed.

(** A negative size leaves the default of the attribute. *)
Lemma canvas_dimension_negative (default n : Z) :
  - 2147483648 <= n < 0 -> canvas_dimension default n = default.
Proof.
  intros Hn. unfold canvas_dimension.
  replace (n mod 4294967296) with (n + 4294967296).
  - destruct (Z.leb_spec (n + 4294967296) 2147483647); [lia | reflexivity].
  - apply Z.mod_unique with (q := - 1); lia.
Qed.

(** What a [canvas] of a size in the range of the attribute holds is that
    size. *)
Lemma canvas_dimension_in_range (default n : Z) :
  0 <= n <= 2147483647 -> canvas_dimension default n = n.
Proof.
  intros Hn. unfold canvas_dimension.
  rewrite Z.mod_small by lia.
  destruct (Z.leb_spec n 2147483647); [reflexivity | lia].
Qed.

(** * The claims *)

(** C1.  On every instance whose constructor succeeded, after any sequence
    of calls: for in-bounds coordinates (which exist only when the width and
    the height are positive) and channel values in 0..255,
    [setPixel x y r g b a] returns normally, and [getPixel x y] called next
    returns exactly the record [{x, y, red: r, green: g, blue: b, alpha: a}]. *)
Theorem setPixel_getPixel_roundtrip
    (H : host) (canvasID : string) (w h : Z) (calls : list call)
    (x y r g b a : Z) :
  safe (snd (construct H canvasID w h)) = true ->
  0 <= x < w -> 0 <= y < h ->
  0 <= r <= 255 -> 0 <= g <= 255 -> 0 <= b <= 255 -> 0 <= a <= 255 ->
  exists s',
    setPixel x y r g b a (instance H canvasID w h calls) = (Normal tt, s')
    /\ getPixel x y s'
       = (Normal {| px := x; py := y; red := Some r; green := Some g;
                    blue := Some b; alpha := Some a |}, s').
Proof.
  intros Hsafe Hx Hy Hr Hg Hb Ha.
  destruct (built_instance H canvasID w h Hsafe calls)
    as (Hw & Hh & _ & d & Hd & Hlen).
  destruct (setPixel_then_getPixel _ d x y r g b a Hd) as (s' & Hset & Hget).
  - rewrite Hw, Hh. exact Hlen.
  - rewrite Hw. exact Hx.
  - rewrite Hh. exact Hy.
  - exists s'. split; [exact Hset|].
    rewrite Hget, !to_uint8_byte by assumption. reflexivity.
Qed.

Lemma setPixel_getPixel_roundtrip_witness :
  exists s',
    setPixel 3 2 255 128 0 255
      (instance demo_host "canvas" 4 4 [CallSetPixel 0 0 9 9 9 9])
    = (Normal tt, s')
    /\ getPixel 3 2 s'
       = (Normal {| px := 3; py := 2; red := Some 255; green := Some 128;
                    blue := Some 0; alpha := Some 255 |}, s').
Proof.
  apply (setPixel_getPixel_roundtrip demo_host "canvas" 4 4);
    first [reflexivity | lia].
Defined.

(** C2.  On every instance whose constructor succeeded, after any sequence
    of calls: [loadPixelData source] with a source whose length differs from
    [width * height * 4] emits the diagnostic and changes nothing else, the
    buffer included; with a source of bytes of that length it emits nothing
    and leaves the buffer equal to the source, byte for byte. *)
Theorem loadPixelData_checked
    (H : host) (canvasID : string) (w h : Z) (calls : list call)
    (source : list Z) :
  safe (snd (construct H canvasID w h)) = true ->
  Forall (fun b => 0 <= b <= 255) source ->
  let s := instance H canvasID w h calls in
  (Z.of_nat (length source) <> w * h * 4 ->
   loadPixelData source s
   = (Normal tt, set_console (console s ++ [UnableToLoadPixelData])%list s)
   /\ data (snd (loadPixelData source s)) = data s)
  /\ (Z.of_nat (length source) = w * h * 4 ->
      exists s',
        loadPixelData source s = (Normal tt, s')
        /\ data s' = Some source
        /\ console s' = console s).
Proof.
  intros Hsafe Hbytes s.
  destruct (built_instance H canvasID w h Hsafe calls)
    as (Hw & Hh & _ & d & Hd & Hlen).
  fold s in Hd. split.
  - intros Hne.
    rewrite (loadPixelData_mismatch s d source Hd) by lia.
    split; reflexivity.
  - intros Heq.
    destruct (loadPixelData_match s d source Hd) as (s' & Hrun & Hsame & Hdata);
      [lia|].
    exists s'. split; [exact Hrun|]. split.
    + rewrite Hdata, map_to_uint8_bytes by exact Hbytes. reflexivity.
    + apply same_but_data_fields in Hsame. tauto.
Qed.

Lemma loadPixelData_checked_witness :
  (loadPixelData [1; 2; 3] (instance demo_host "canvas" 1 1 [])
   = (Normal tt,
      set_console
        (console (instance demo_host "canvas" 1 1 [])
         ++ [UnableToLoadPixelData])%list
        (instance demo_host "canvas" 1 1 []))
   /\ data (snd (loadPixelData [1; 2; 3] (instance demo_host "canvas" 1 1 [])))
      = data (instance demo_host "canvas" 1 1 []))
  /\ (exists s',
        loadPixelData [255; 128; 0; 255] (instance demo_host "canvas" 1 1 [])
        = (Normal tt, s')
        /\ data s' = Some [255; 128; 0; 255]
        /\ console s' = console (instance demo_host "canvas" 1 1 [])).
Proof.
  split.
  - apply (loadPixelData_checked demo_host "canvas" 1 1 [] [1; 2; 3]).
    + reflexivity.
    + repeat constructor; lia.
    + cbn. lia.
  - apply (loadPixelData_checked demo_host "canvas" 1 1 [] [255; 128; 0; 255]).
    + reflexivity.
    + repeat constructor; lia.
    + reflexivity.
Defined.

(** C3.  For every call of [initialize] on an instance that is not yet
    initialized: the flag is true afterwards only if both fetches resolved
    with status 200, both shaders compiled and the program linked; if one of
    the five steps fails the flag is still false when the call ends (also
    when it ends by throwing); and on an instance that has its WebGL context
    the five steps together do set the flag. *)
Theorem initialize_sets_flag_only_after_all_steps
    (H : host) (v f : string) (s : PixelGL) :
  initialized s = false ->
  let s' := snd (initialize H v f s) in
  (initialized s' = true ->
   exists rv rf,
     fetch H v = Normal rv /\ status rv = 200
     /\ fetch H f = Normal rf /\ status rf = 200
     /\ gl_compile_status H VERTEX_SHADER (text rv) = true
     /\ gl_compile_status H FRAGMENT_SHADER (text rf) = true
     /\ gl_link_status H
          {| attached :=
               [ {| shader_type := VERTEX_SHADER; shader_source := text rv |};
                 {| shader_type := FRAGMENT_SHADER;
                    shader_source := text rf |} ] |} = true)
  /\ (fetched H v = false \/ fetched H f = false
      \/ compiles H VERTEX_SHADER v = false
      \/ compiles H FRAGMENT_SHADER f = false
      \/ links H v f = false ->
      initialized s' = false)
  /\ ((exists g, gl s = Some g) -> all_steps_succeed H v f = true ->
      initialized s' = true).
Proof.
  intros Hini s'. subst s'. rewrite initialize_flag, Hini, orb_false_r.
  split; [|split].
  - destruct (gl s); [|discriminate]. apply all_steps_succeed_true.
  - intros Hfail. destruct (gl s); [|reflexivity].
    unfold all_steps_succeed.
    destruct Hfail as [-> | [-> | [-> | [-> | ->]]]];
      rewrite ?andb_false_r; reflexivity.
  - intros [g ->] ->. reflexivity.
Qed.

Lemma initialize_sets_flag_only_after_all_steps_witness :
  initialized
    (snd (initialize demo_host "shaders/pixelGL.vert" "shaders/pixelGL.frag"
            (instance demo_host "canvas" 4 4 []))) = true
  /\ initialized
       (snd (initialize broken_fragment_host "shaders/pixelGL.vert"
               "shaders/pixelGL.frag"
               (instance broken_fragment_host "canvas" 4 4 []))) = false.
Proof.
  split.
  - apply (initialize_sets_flag_only_after_all_steps demo_host
             "shaders/pixelGL.vert" "shaders/pixelGL.frag"
             (instance demo_host "canvas" 4 4 []));
      [reflexivity | eexists; vm_compute; reflexivity | reflexivity].
  - apply (initialize_sets_flag_only_after_all_steps broken_fragment_host
             "shaders/pixelGL.vert" "shaders/pixelGL.frag"
             (instance broken_fragment_host "canvas" 4 4 []));
      [reflexivity |].
    right. right. right. left. reflexivity.
Defined.

(** C4: [translateMatrix] is not the product with the translation by
    [(tx, ty)], and translating by [(0, 0)] is not a no-op: on the identity
    matrix it returns the translation by [(0, 0, 1)], whose elements 14 and 15
    are both 1. *)
Theorem translateMatrix_by_zero_changes_identity :
  length identity_matrix = 16%nat
  /\ translateMatrix identity_matrix (of_Z 0) (of_Z 0)
     = map of_Z [ 1; 0; 0; 0;  0; 1; 0; 0;  0; 0; 1; 0;  0; 0; 1; 1 ]
  /\ mat_mul identity_matrix (translation (of_Z 0) (of_Z 0) (of_Z 0))
     = identity_matrix
  /\ translateMatrix identity_matrix (of_Z 0) (of_Z 0) <> identity_matrix
  /\ translateMatrix identity_matrix (of_Z 0) (of_Z 0)
     <> mat_mul identity_matrix (translation (of_Z 0) (of_Z 0) (of_Z 0)).
Proof.
  assert (Hrun : translateMatrix identity_matrix (of_Z 0) (of_Z 0)
                 = map of_Z
                     [ 1; 0; 0; 0;  0; 1; 0; 0;  0; 0; 1; 0;  0; 0; 1; 1 ]).
  { matrix_eq. }
  assert (Hmul : mat_mul identity_matrix
                   (translation (of_Z 0) (of_Z 0) (of_Z 0))
                 = identity_matrix).
  { matrix_eq. }
  assert (Hne : translateMatrix identity_matrix (of_Z 0) (of_Z 0)
                <> identity_matrix).
  { rewrite Hrun. intros E.
    apply (f_equal (fun m => mat_get m 14)) in E.
    vm_compute in E. discriminate E. }
  split; [reflexivity|]. split; [exact Hrun|]. split; [exact Hmul|].
  split; [exact Hne|]. rewrite Hmul. exact Hne.
Qed.

(** C5, as the code has it.  On every instance whose constructor succeeded,
    after any sequence of calls, [createOrthographicMatrix] returns the 16
    numbers below: with [left = 0], [right] and [bottom] the width and the
    height of the canvas (the [width] and [height] given to the
    constructor, when they are in 0..2147483647), [top = 0], [near = -1],
    [far = 1], index 0 holds [2 / (right - left)], index 5
    [2 / (top - bottom)], index 10 [2 / (near - far)], index 12
    [(left + right) / (left - right)], index 13
    [(bottom + top) / (bottom - top)], index 14
    [(near + far) / (near - far)], index 15 holds 1 and the others 0, each
    computed in double arithmetic and rounded to the nearest float32 when it
    is stored.  For 960 by 640, index 0 holds the float32 nearest to
    [2 / 960], which is 8947849 / 2^32, and index 5 the float32 nearest to
    [2 / (0 - 640)], which is -13421773 / 2^32. *)
Theorem createOrthographicMatrix_rounded_entries
    (H : host) (canvasID : string) (w h : Z) (calls : list call) :
  safe (snd (construct H canvasID w h)) = true ->
  let left := of_Z 0 in
  let right := of_Z (canvas_dimension 300 w) in
  let bottom := of_Z (canvas_dimension 150 h) in
  let top := of_Z 0 in
  let near := of_Z (- 1) in
  let far := of_Z 1 in
  exists m : mat4,
    createOrthographicMatrix (instance H canvasID w h calls)
    = (Normal m, instance H canvasID w h calls)
    /\ length m = 16%nat
    /\ m = map fround
             [ of_Z 2 / (right - left); of_Z 0; of_Z 0; of_Z 0;
               of_Z 0; of_Z 2 / (top - bottom); of_Z 0; of_Z 0;
               of_Z 0; of_Z 0; of_Z 2 / (near - far); of_Z 0;
               (left + right) / (left - right);
               (bottom + top) / (bottom - top);
               (near + far) / (near - far);
               of_Z 1 ]%js
    /\ mat_get m 0 = fround (of_Z 2 / (right - left))
    /\ mat_get m 5 = fround (of_Z 2 / (top - bottom))
    /\ mat_get m 10 = fround (of_Z 2 / (near - far))
    /\ mat_get m 12 = fround ((left + right) / (left - right))
    /\ mat_get m 13 = fround ((bottom + top) / (bottom - top))
    /\ mat_get m 14 = fround ((near + far) / (near - far))
    /\ (0 <= w <= 2147483647 -> right = of_Z w)
    /\ (0 <= h <= 2147483647 -> bottom = of_Z h)
    /\ (w = 960 -> h = 640 ->
        mat_get m 0 = fround (of_Z 2 / of_Z 960)
        /\ value (mat_get m 0) = Some (8947849 # 4294967296)%Q
        /\ mat_get m 5 = fround (of_Z 2 / (of_Z 0 - of_Z 640))
        /\ value (mat_get m 5) = Some (- 13421773 # 4294967296)%Q).
Proof.
  intros Hsafe left right bottom top near far.
  destruct (built_instance H canvasID w h Hsafe calls)
    as (_ & _ & (g & Hg & Hcw & Hch) & _).
  eexists. split.
  - rewrite (createOrthographicMatrix_run _ g Hg), Hcw, Hch. reflexivity.
  - do 8 (split; [reflexivity|]).
    subst left right bottom top near far.
    split; [intros Hw; rewrite canvas_dimension_in_range by exact Hw;
            reflexivity|].
    split; [intros Hh; rewrite canvas_dimension_in_range by exact Hh;
            reflexivity|].
    intros -> ->. repeat split; vm_compute; reflexivity.
Qed.

Lemma createOrthographicMatrix_rounded_entries_witness :
  exists m : mat4,
    createOrthographicMatrix (instance demo_host "canvas" 960 640 [])
    = (Normal m, instance demo_host "canvas" 960 640 [])
    /\ value (mat_get m 0) = Some (8947849 # 4294967296)%Q
    /\ value (mat_get m 5) = Some (- 13421773 # 4294967296)%Q.
Proof.
  destruct (createOrthographicMatrix_rounded_entries demo_host "canvas"
              960 640 [])
    as (m & Hrun & _ & _ & _ & _ & _ & _ & _ & _ & _ & _ & Hdemo);
    [reflexivity|].
  destruct (Hdemo eq_refl eq_refl) as (_ & H0 & _ & H5).
  exists m. split; [exact Hrun|]. split; [exact H0 | exact H5].
Defined.

(** C5, as the claim states it, fails: the matrix is a [Float32Array], and
    neither [2 / 960] nor [2 / (0 - 640)] is a float32.  For 960 by 640,
    index 0 holds 8947849 / 2^32 and index 5 holds -13421773 / 2^32: these
    are not the rationals 2 / 960 and 2 / (0 - 640), and not the doubles the
    two divisions give either. *)
Lemma createOrthographicMatrix_rounds_960_640 :
  exists m : mat4,
    createOrthographicMatrix (instance demo_host "canvas" 960 640 [])
    = (Normal m, instance demo_host "canvas" 960 640 [])
    /\ value (mat_get m 0) = Some (8947849 # 4294967296)%Q
    /\ value (mat_get m 5) = Some (- 13421773 # 4294967296)%Q
    /\ ~ (8947849 # 4294967296 == 2 / 960)%Q
    /\ ~ (- 13421773 # 4294967296 == 2 / (0 - 640))%Q
    /\ mat_get m 0 <> (of_Z 2 / of_Z 960)%js
    /\ mat_get m 5 <> (of_Z 2 / (of_Z 0 - of_Z 640))%js.
Proof.
  destruct (built_instance demo_host "canvas" 960 640 eq_refl [])
    as (_ & _ & (g & Hg & Hcw & Hch) & _).
  eexists. split.
  - rewrite (createOrthographicMatrix_run _ g Hg), Hcw, Hch. reflexivity.
  - repeat split; vm_compute; first [reflexivity | discriminate].
Qed.

(** C6, as the code has it.  The class catches nothing, and an operation
    throws exactly where a failure is not tested for.  The constructor
    returns normally exactly when the lookup of the canvas gives [null], or
    an element whose [getContext] gives [null], or one that gives a context
    with a buffer size [width * height * 4] that is not negative and that
    the engine can allocate; when it returns normally and leaves [safe]
    false it has emitted one diagnostic, and when it throws (a selector that
    does not parse, an element that is not a canvas, a buffer that cannot
    be allocated) it leaves [safe] false and emits none.  On an instance
    whose constructor succeeded, after any sequence of calls, [setPixel],
    [getPixel], [loadPixelData] and [render] return normally for all
    arguments.  [initialize] throws, leaving the instance as it was and
    emitting no diagnostic, exactly when a fetch rejects or when both
    responses have status 200 and a body cannot be read; in every other
    case it returns normally: [undefined] after a success, and after a
    failed step (a status other than 200, a compilation, the link) [null],
    with diagnostics on the console. *)
Theorem operations_throw_where_unchecked
    (H : host) (canvasID : string) (w h : Z) :
  let s0 := snd (construct H canvasID w h) in
  (fst (construct H canvasID w h) = Normal tt <->
   document_querySelector H ("#" ++ canvasID) = Normal None
   \/ exists element,
        document_querySelector H ("#" ++ canvasID) = Normal (Some element)
        /\ (canvas_getContext H element = Normal false
            \/ canvas_getContext H element = Normal true
               /\ 0 <= w * h * 4 <= typed_array_max_length H))
  /\ (fst (construct H canvasID w h) = Normal tt -> safe s0 = false ->
      exists d, console s0 = [d])
  /\ (forall e, fst (construct H canvasID w h) = Throw e ->
      safe s0 = false /\ console s0 = [])
  /\ (safe s0 = true ->
      forall calls,
        let s := instance H canvasID w h calls in
        (forall x y r g b a, fst (setPixel x y r g b a s) = Normal tt)
        /\ (forall x y, exists p, fst (getPixel x y s) = Normal p)
        /\ (forall source, fst (loadPixelData source s) = Normal tt)
        /\ (forall renderBegin renderFinish,
              fst (render renderBegin renderFinish s) = Normal tt)
        /\ (forall v f,
              if rejects H v f then
                exists e, initialize H v f s = (Throw e, s)
              else
                fst (initialize H v f s)
                = Normal (if all_steps_succeed H v f then Undefined
                          else Null)
                /\ (all_steps_succeed H v f = false ->
                    exists ds,
                      console (snd (initialize H v f s))
                      = (console s ++ ds
                         ++ [ErrorCreatingShaderProgram])%list))).
Proof.
  intros s0. subst s0.
  pose proof (construct_cases H canvasID w h) as Hcases. cbv zeta in Hcases.
  split; [|split; [|split]].
  - destruct (document_querySelector H _) as [[element|]|e0].
    + destruct (canvas_getContext H element) as [[|]|e1] eqn:Hctx.
      * destruct (Z.leb_spec 0 (w * h * 4));
          destruct (Z.leb_spec (w * h * 4) (typed_array_max_length H));
          cbn [andb] in Hcases; destruct Hcases as (-> & _);
          (split;
           [ first [ discriminate
                   | intros _; right; exists element;
                     split; [reflexivity|]; right; split; [exact Hctx | lia] ]
           | intros [[=] | (el & [= <-] & [Hc | [_ Hsize]])];
             first [ reflexivity
                   | rewrite Hctx in Hc; discriminate Hc
                   | exfalso; lia ] ]).
      * destruct Hcases as (-> & _). split; [|reflexivity].
        intros _. right. exists element. split; [reflexivity|].
        left. exact Hctx.
      * destruct Hcases as (-> & _). split; [discriminate|].
        intros [[=] | (el & [= <-] & [Hc | [Hc _]])];
          rewrite Hctx in Hc; discriminate Hc.
    + destruct Hcases as (-> & _). split; [|reflexivity].
      intros _. left. reflexivity.
    + destruct Hcases as (-> & _). split; [discriminate|].
      intros [[=] | (el & [=] & _)].
  - destruct (document_querySelector H _) as [[element|]|e0].
    + destruct (canvas_getContext H element) as [[|]|e1].
      * destruct ((0 <=? w * h * 4)
                  && (w * h * 4 <=? typed_array_max_length H));
          destruct Hcases as (-> & -> & _);
          first [discriminate | intros _; discriminate].
      * destruct Hcases as (_ & _ & -> & _). intros _ _. eexists. reflexivity.
      * destruct Hcases as (-> & _). discriminate.
    + destruct Hcases as (_ & _ & -> & _). intros _ _. eexists. reflexivity.
    + destruct Hcases as (-> & _). discriminate.
  - intros e. destruct (document_querySelector H _) as [[element|]|e0].
    + destruct (canvas_getContext H element) as [[|]|e1].
      * destruct ((0 <=? w * h * 4)
                  && (w * h * 4 <=? typed_array_max_length H)).
        -- destruct Hcases as (-> & _). discriminate.
        -- destruct Hcases as (_ & -> & -> & _). intros _.
           split; reflexivity.
      * destruct Hcases as (-> & _). discriminate.
      * destruct Hcases as (_ & -> & -> & _). intros _. split; reflexivity.
    + destruct Hcases as (-> & _). discriminate.
    + destruct Hcases as (_ & -> & -> & _). intros _. split; reflexivity.
  - clear Hcases. intros Hsafe calls s.
    destruct (built_instance H canvasID w h Hsafe calls)
      as (_ & _ & (g & Hg & _) & d & Hd & _).
    fold s in Hg, Hd. split; [|split; [|split; [|split]]].
    + intros x y r g0 b a. rewrite (setPixel_run s d) by exact Hd.
      reflexivity.
    + intros x y. eexists. rewrite (getPixel_run s d) by exact Hd.
      reflexivity.
    + intros source.
      destruct (Nat.eq_dec (length source) (length d)) as [E|E].
      * destruct (loadPixelData_match s d source Hd E) as (s' & -> & _).
        reflexivity.
      * rewrite (loadPixelData_mismatch s d source Hd E). reflexivity.
    + intros renderBegin renderFinish. apply (render_run s g), Hg.
    + intros v f. apply initialize_outcome. eauto.
Qed.

Lemma operations_throw_where_unchecked_witness :
  fst (construct missing_fragment_host "canvas" 4 4) = Normal tt
  /\ fst (initialize missing_fragment_host "shaders/pixelGL.vert"
            "shaders/pixelGL.frag"
            (instance missing_fragment_host "canvas" 4 4
               [CallSetPixel 9 9 1 2 3 4])) = Normal Null
  /\ (exists e,
        initialize interrupted_host "shaders/pixelGL.vert"
          "shaders/pixelGL.frag" (instance interrupted_host "canvas" 4 4 [])
        = (Throw e, instance interrupted_host "canvas" 4 4 []))
  /\ (forall e, fst (construct div_host "canvas" 4 4) = Throw e ->
      safe (snd (construct div_host "canvas" 4 4)) = false
      /\ console (snd (construct div_host "canvas" 4 4)) = []).
Proof.
  destruct (operations_throw_where_unchecked missing_fragment_host
              "canvas" 4 4) as (Hret & _ & _ & Hcalls).
  destruct (operations_throw_where_unchecked interrupted_host "canvas" 4 4)
    as (_ & _ & _ & Hcalls').
  destruct (operations_throw_where_unchecked div_host "canvas" 4 4)
    as (_ & _ & Hthrow & _).
  split; [|split; [|split]].
  - apply Hret. right. exists "canvas". split; [reflexivity|].
    right. split; [reflexivity|]. split; [lia | discriminate].
  - destruct (Hcalls eq_refl [CallSetPixel 9 9 1 2 3 4])
      as (_ & _ & _ & _ & Hinit).
    exact (proj1 (Hinit "shaders/pixelGL.vert" "shaders/pixelGL.frag")).
  - destruct (Hcalls' eq_refl []) as (_ & _ & _ & _ & Hinit).
    exact (Hinit "shaders/pixelGL.vert" "shaders/pixelGL.frag").
  - exact Hthrow.
Defined.

(** C6, as the claim states it, fails: when the fetch itself rejects,
    [initialize] on a successfully constructed instance ends by throwing
    (its promise rejects), and nothing is written to the console. *)
Lemma initialize_rejects_when_fetch_rejects :
  safe offline_instance = true
  /\ initialize offline_host "shaders/pixelGL.vert" "shaders/pixelGL.frag"
       offline_instance
     = (Throw (TypeError "Failed to fetch"), offline_instance)
  /\ console offline_instance = [].
Proof. repeat split. Qed.

(** C7: the diagnostic of a failed compilation names the vertex stage
    whatever the type of the shader, the fragment type included: the test
    on the shader type is an assignment of [VERTEX_SHADER]. *)
Theorem compileShader_always_names_vertex
    (H : host) (shaderSource : string) (shaderType : Z) (s : PixelGL) :
  (exists g, gl s = Some g) ->
  gl_compile_status H shaderType shaderSource = false ->
  fst (compileShader H shaderSource shaderType s) = Normal None
  /\ console (snd (compileShader H shaderSource shaderType s))
     = (console s
        ++ [ErrorCompilingShader "vertex shader"
              (gl_shader_info_log H shaderType shaderSource)])%list.
Proof.
  intros [g Hg] Hfail. unfold_methods. rewrite Hfail.
  destruct s as [sf ini cv g' wd ht pc bc dt tx pr ld le cs].
  cbn in Hg. subst g'. split; reflexivity.
Qed.

Lemma compileShader_always_names_vertex_witness :
  fst (compileShader broken_fragment_host "void main() { }" FRAGMENT_SHADER
         broken_fragment_instance)
  = Normal None
  /\ console (snd (compileShader broken_fragment_host "void main() { }"
                     FRAGMENT_SHADER broken_fragment_instance))
     = [ErrorCompilingShader "vertex shader" "ERROR: 0:1: syntax error"].
Proof.
  destruct (compileShader_always_names_vertex broken_fragment_host
              "void main() { }" FRAGMENT_SHADER broken_fragment_instance)
    as [Hret Hconsole]; [eexists; vm_compute; reflexivity | reflexivity |].
  split; [exact Hret|]. rewrite Hconsole. reflexivity.
Defined.

(** C8: when the vertex fetch has status 200 and the fragment fetch has
    not, [compileShaders] returns [null] and its diagnostic carries the
    status of the fragment response, next to the URI of the vertex
    shader. *)
Theorem compileShaders_always_names_vertex_uri
    (H : host) (v f : string) (rv rf : response) (s : PixelGL) :
  fetch H v = Normal rv -> status rv = 200 ->
  fetch H f = Normal rf -> status rf <> 200 ->
  compileShaders H v f s
  = (Normal None,
     set_console
       (console s ++ [ErrorRetrievingSource v (statusText rf) (status rf)])%list
       s).
Proof.
  intros Hv Hsv Hf Hsf.
  destruct (fetch_inv H v rv Hv) as (wv & Hwv & Ev & _ & _).
  destruct (fetch_inv H f rf Hf) as (wf & Hwf & Ef & Et & _).
  rewrite <- Ef, <- Et.
  apply (compileShaders_bad_status H v f wv wf); congruence.
Qed.

Lemma compileShaders_always_names_vertex_uri_witness :
  compileShaders missing_fragment_host "shaders/pixelGL.vert"
    "shaders/pixelGL.frag" missing_fragment_instance
  = (Normal None,
     set_console
       (console missing_fragment_instance
        ++ [ErrorRetrievingSource "shaders/pixelGL.vert" "Not Found" 404])%list
       missing_fragment_instance).
Proof.
  apply (compileShaders_always_names_vertex_uri missing_fragment_host
           "shaders/pixelGL.vert" "shaders/pixelGL.frag"
           (ok_response "void main() { }") not_found);
    [reflexivity | reflexivity | reflexivity | discriminate].
Defined.

(** C9.  On every instance whose constructor succeeded, the pixel buffer
    holds [width * height * 4] bytes after construction and after any
    sequence of calls of [initialize], [render], [setPixel], [getPixel] and
    [loadPixelData], whatever their arguments and whether or not they
    throw. *)
Theorem buffer_length_invariant
    (H : host) (canvasID : string) (w h : Z) (calls : list call) :
  safe (snd (construct H canvasID w h)) = true ->
  let s := instance H canvasID w h calls in
  width s = w /\ height s = h
  /\ exists d, data s = Some d
               /\ Z.of_nat (length d) = width s * height s * 4.
Proof.
  intros Hsafe s.
  destruct (built_instance H canvasID w h Hsafe calls)
    as (Hw & Hh & _ & d & Hd & Hlen).
  fold s in Hw, Hh, Hd. split; [exact Hw|]. split; [exact Hh|].
  exists d. split; [exact Hd|]. rewrite Hw, Hh. exact Hlen.
Qed.

Lemma buffer_length_invariant_witness :
  width (instance offline_host "canvas" 4 4 busy_calls) = 4
  /\ height (instance offline_host "canvas" 4 4 busy_calls) = 4
  /\ exists d,
       data (instance offline_host "canvas" 4 4 busy_calls) = Some d
       /\ Z.of_nat (length d)
          = width (instance offline_host "canvas" 4 4 busy_calls)
            * height (instance offline_host "canvas" 4 4 busy_calls) * 4.
Proof.
  apply (buffer_length_invariant offline_host "canvas" 4 4 busy_calls).
  reflexivity.
Defined.

(** C10.  On the same instances and for in-bounds coordinates, [setPixel]
    with arbitrary integer channel arguments stores each argument modulo 256:
    [getPixel] called next returns the reduced values (300 reads back as 44),
    not the arguments as passed. *)
Theorem setPixel_stores_modulo_256
    (H : host) (canvasID : string) (w h : Z) (calls : list call)
    (x y r g b a : Z) :
  safe (snd (construct H canvasID w h)) = true ->
  0 <= x < w -> 0 <= y < h ->
  exists s',
    setPixel x y r g b a (instance H canvasID w h calls) = (Normal tt, s')
    /\ getPixel x y s'
       = (Normal {| px := x; py := y;
                    red := Some (r mod 256); green := Some (g mod 256);
                    blue := Some (b mod 256); alpha := Some (a mod 256) |},
          s').
Proof.
  intros Hsafe Hx Hy.
  destruct (built_instance H canvasID w h Hsafe calls)
    as (Hw & Hh & _ & d & Hd & Hlen).
  destruct (setPixel_then_getPixel _ d x y r g b a Hd) as (s' & Hset & Hget).
  - rewrite Hw, Hh. exact Hlen.
  - rewrite Hw. exact Hx.
  - rewrite Hh. exact Hy.
  - exists s'. split; [exact Hset | exact Hget].
Qed.

Lemma setPixel_stores_modulo_256_witness :
  exists s',
    setPixel 1 2 300 (-1) 256 255 (instance demo_host "canvas" 4 4 [])
    = (Normal tt, s')
    /\ getPixel 1 2 s'
       = (Normal {| px := 1; py := 2; red := Some 44; green := Some 255;
                    blue := Some 0; alpha := Some 255 |}, s').
Proof.
  destruct (setPixel_stores_modulo_256 demo_host "canvas" 4 4 [] 1 2
              300 (-1) 256 255) as (s' & Hset & Hget);
    [reflexivity | lia | lia |].
  exists s'. split; [exact Hset | exact Hget].
Defined.

(** * Further properties *)

(** ** Pixel accessors *)

Lemma set_data_same (s : PixelGL) (d : list Z) :
  data s = Some d -> set_data (Some d) s = s.
Proof. destruct s. cbn. intros ->. reflexivity. Qed.

(** Reading an element of a typed array after one store. *)
Lemma typed_get_set (a : list Z) (i j v : Z) :
  typed_get (typed_set a i v) j
  = if decide (i = j /\ 0 <= i < Z.of_nat (length a))
    then Some (to_uint8 v) else typed_get a j.
Proof.
  case_decide as Hc.
  - destruct Hc as [<- Hi]. apply typed_get_set_eq, Hi.
  - destruct (decide (i = j)) as [<-|Hne].
    + unfold typed_get, typed_set.
      destruct (Z.leb_spec 0 i) as [Hi|Hi]; [|reflexivity].
      rewrite list_insert_ge by lia. reflexivity.
    + apply typed_get_set_ne, Hne.
Qed.

Lemma typed_get_of_nat (a : list Z) (n : nat) :
  typed_get a (Z.of_nat n) = a !! n.
Proof.
  unfold typed_get. rewrite (proj2 (Z.leb_le 0 (Z.of_nat n))) by lia.
  rewrite Nat2Z.id. reflexivity.
Qed.

(** Two buffers are equal when every element read gives the same. *)
Lemma typed_ext (a b : list Z) :
  (forall i, typed_get a i = typed_get b i) -> a = b.
Proof.
  intros E. apply list_eq. intros n.
  rewrite <- !typed_get_of_nat. apply E.
Qed.

(** Solves a goal on the elements of buffers built by stores. *)
Ltac typed_cases :=
  unfold written;
  repeat (rewrite typed_get_set; rewrite ?typed_set_length);
  repeat case_decide; try lia; try reflexivity.

Lemma written_out (d : list Z) (index r g b a j : Z) :
  j < index \/ index + 3 < j ->
  typed_get (written d index r g b a) j = typed_get d j.
Proof. intros Hj. typed_cases. Qed.

Lemma written_outside (d : list Z) (index r g b a : Z) :
  index + 3 < 0 \/ Z.of_nat (length d) <= index ->
  written d index r g b a = d.
Proof. intros Hout. apply typed_ext. intros j. typed_cases. Qed.

Lemma written_twice (d : list Z) (index r g b a r' g' b' a' : Z) :
  written (written d index r g b a) index r' g' b' a'
  = written d index r' g' b' a'.
Proof.
  apply typed_ext. intros j. unfold written.
  repeat (rewrite typed_get_set; rewrite ?typed_set_length).
  repeat case_decide; try lia; try reflexivity.
Qed.

(** Two different in-bounds pixels are four bytes apart or more. *)
Lemma index_apart (w h x y x' y' : Z) :
  0 <= x < w -> 0 <= y < h -> 0 <= x' < w -> 0 <= y' < h ->
  (x, y) <> (x', y') ->
  (y' * w + x') * 4 + 3 < (y * w + x) * 4
  \/ (y * w + x) * 4 + 3 < (y' * w + x') * 4.
Proof.
  intros Hx Hy Hx' Hy' Hne.
  destruct (Z.lt_trichotomy y y') as [Hlt | [-> | Hgt]].
  - right. assert (0 <= (y' - y - 1) * w) by (apply Z.mul_nonneg_nonneg; lia).
    lia.
  - assert (x <> x') by congruence. lia.
  - left. assert (0 <= (y - y' - 1) * w) by (apply Z.mul_nonneg_nonneg; lia).
    lia.
Qed.

(** X1.  On every instance whose constructor succeeded, after any sequence
    of calls: [setPixel] on one in-bounds pixel leaves every other in-bounds
    pixel as it was, [getPixel] on the other pixel returns the same record
    before and after. *)
Theorem setPixel_leaves_other_pixels
    (H : host) (canvasID : string) (w h : Z) (calls : list call)
    (x y r g b a x' y' : Z) :
  safe (snd (construct H canvasID w h)) = true ->
  0 <= x < w -> 0 <= y < h -> 0 <= x' < w -> 0 <= y' < h ->
  (x, y) <> (x', y') ->
  fst (getPixel x' y'
         (snd (setPixel x y r g b a (instance H canvasID w h calls))))
  = fst (getPixel x' y' (instance H canvasID w h calls)).
Proof.
  intros Hsafe Hx Hy Hx' Hy' Hne.
  destruct (built_instance H canvasID w h Hsafe calls)
    as (Hw & Hh & _ & d & Hd & Hlen).
  rewrite (setPixel_run _ d) by exact Hd. cbn [snd].
  erewrite getPixel_run by reflexivity.
  rewrite (getPixel_run _ d) by exact Hd.
  cbn [fst width set_data]. rewrite Hw.
  pose proof (index_apart w h x y x' y' Hx Hy Hx' Hy' Hne) as Hapart.
  rewrite !written_out by lia. reflexivity.
Qed.

Lemma setPixel_leaves_other_pixels_witness :
  fst (getPixel 0 1
         (snd (setPixel 3 0 1 2 3 4
                 (instance demo_host "canvas" 4 4
                    [CallSetPixel 0 1 9 8 7 6]))))
  = fst (getPixel 0 1
           (instance demo_host "canvas" 4 4 [CallSetPixel 0 1 9 8 7 6])).
Proof.
  apply (setPixel_leaves_other_pixels demo_host "canvas" 4 4);
    first [reflexivity | lia | discriminate].
Defined.

(** X2.  On every instance whose constructor succeeded, after any sequence
    of calls: [setPixel] with coordinates whose pixel number [y * width + x]
    is negative or not below [width * height], the index being computed
    without rounding, returns normally and changes nothing, neither the
    buffer nor any other field. *)
Theorem setPixel_outside_buffer_changes_nothing
    (H : host) (canvasID : string) (w h : Z) (calls : list call)
    (x y r g b a : Z) :
  safe (snd (construct H canvasID w h)) = true ->
  index_exact w x y ->
  y * w + x < 0 \/ w * h <= y * w + x ->
  setPixel x y r g b a (instance H canvasID w h calls)
  = (Normal tt, instance H canvasID w h calls).
Proof.
  intros Hsafe _ Hout.
  destruct (built_instance H canvasID w h Hsafe calls)
    as (Hw & Hh & _ & d & Hd & Hlen).
  rewrite (setPixel_run _ d) by exact Hd. rewrite Hw.
  rewrite written_outside by lia.
  rewrite set_data_same by exact Hd. reflexivity.
Qed.

Lemma setPixel_outside_buffer_changes_nothing_witness :
  setPixel 0 4 1 2 3 4 (instance demo_host "canvas" 4 4 [])
  = (Normal tt, instance demo_host "canvas" 4 4 [])
  /\ setPixel (-1) 0 1 2 3 4 (instance demo_host "canvas" 4 4 [])
     = (Normal tt, instance demo_host "canvas" 4 4 []).
Proof.
  split;
    apply (setPixel_outside_buffer_changes_nothing demo_host "canvas" 4 4);
    first [reflexivity | unfold index_exact, safe_integer; lia | lia].
Defined.

(** X3.  On every instance whose constructor succeeded, after any sequence
    of calls: [setPixel] with a column one row width too far, [x + width]
    for an in-bounds [x], and a row [y] whose successor is in bounds writes
    the pixel [(x, y + 1)]: [getPixel x (y + 1)] called next returns the
    channels written, reduced modulo 256. *)
Theorem setPixel_past_row_end_writes_next_row
    (H : host) (canvasID : string) (w h : Z) (calls : list call)
    (x y r g b a : Z) :
  safe (snd (construct H canvasID w h)) = true ->
  0 <= x < w -> 0 <= y -> y + 1 < h ->
  fst (getPixel x (y + 1)
         (snd (setPixel (x + w) y r g b a (instance H canvasID w h calls))))
  = Normal {| px := x; py := y + 1;
              red := Some (r mod 256); green := Some (g mod 256);
              blue := Some (b mod 256); alpha := Some (a mod 256) |}.
Proof.
  intros Hsafe Hx Hy Hy1.
  destruct (built_instance H canvasID w h Hsafe calls)
    as (Hw & Hh & _ & d & Hd & Hlen).
  rewrite (setPixel_run _ d) by exact Hd. cbn [snd].
  erewrite getPixel_run by reflexivity.
  cbn [fst width set_data]. rewrite Hw.
  replace ((y * w + (x + w)) * 4) with (((y + 1) * w + x) * 4) by lia.
  destruct (index_in_bounds w h x (y + 1)) as [Hlo Hhi]; [lia | lia |].
  destruct (written_read d (((y + 1) * w + x) * 4) r g b a)
    as (-> & -> & -> & ->); [lia | lia | reflexivity].
Qed.

Lemma setPixel_past_row_end_writes_next_row_witness :
  fst (getPixel 1 1
         (snd (setPixel 5 0 300 2 3 4 (instance demo_host "canvas" 4 4 []))))
  = Normal {| px := 1; py := 0 + 1;
              red := Some (300 mod 256); green := Some (2 mod 256);
              blue := Some (3 mod 256); alpha := Some (4 mod 256) |}.
Proof.
  apply (setPixel_past_row_end_writes_next_row demo_host "canvas" 4 4 [] 1 0);
    first [reflexivity | lia].
Defined.

(** X4.  On every instance whose constructor succeeded, after any sequence
    of calls: [getPixel] returns normally and changes no field, for all
    coordinates; when the pixel number [y * width + x] is negative or not
    below [width * height], the index being computed without rounding, the
    four channels of the record are [undefined]. *)
Theorem getPixel_reads_only
    (H : host) (canvasID : string) (w h : Z) (calls : list call) (x y : Z) :
  safe (snd (construct H canvasID w h)) = true ->
  exists p,
    getPixel x y (instance H canvasID w h calls)
    = (Normal p, instance H canvasID w h calls)
    /\ px p = x /\ py p = y
    /\ (index_exact w x y ->
        y * w + x < 0 \/ w * h <= y * w + x ->
        red p = None /\ green p = None /\ blue p = None /\ alpha p = None).
Proof.
  intros Hsafe.
  destruct (built_instance H canvasID w h Hsafe calls)
    as (Hw & Hh & _ & d & Hd & Hlen).
  eexists. split; [apply (getPixel_run _ d), Hd|].
  split; [reflexivity|]. split; [reflexivity|].
  intros _ Hout. cbn [red green blue alpha]. rewrite Hw.
  unfold typed_get.
  repeat split;
    match goal with
    | |- (if 0 <=? ?i then _ else _) = None =>
        destruct (Z.leb_spec 0 i) as [Hi|Hi];
        [apply lookup_ge_None_2; lia | reflexivity]
    end.
Qed.

Lemma getPixel_reads_only_witness :
  exists p,
    getPixel 4 3 (instance demo_host "canvas" 4 4 [])
    = (Normal p, instance demo_host "canvas" 4 4 [])
    /\ red p = None /\ green p = None /\ blue p = None /\ alpha p = None.
Proof.
  destruct (getPixel_reads_only demo_host "canvas" 4 4 [] 4 3)
    as (p & Hrun & _ & _ & Hout); [reflexivity|].
  exists p. split; [exact Hrun|].
  apply Hout; [unfold index_exact, safe_integer; lia | lia].
Defined.

(** X5.  On every instance that has a buffer, for all coordinates, in
    bounds or not: two [setPixel] calls on the same coordinates leave the
    instance as the second call alone does. *)
Theorem setPixel_last_write_wins
    (s : PixelGL) (x y r g b a r' g' b' a' : Z) :
  (exists d, data s = Some d) ->
  setPixel x y r' g' b' a' (snd (setPixel x y r g b a s))
  = setPixel x y r' g' b' a' s.
Proof.
  intros [d Hd].
  rewrite (setPixel_run s d) by exact Hd. cbn [snd].
  erewrite setPixel_run by reflexivity.
  rewrite (setPixel_run s d) by exact Hd.
  cbn [width set_data]. rewrite written_twice. reflexivity.
Qed.

Lemma setPixel_last_write_wins_witness :
  setPixel 1 2 5 6 7 8
    (snd (setPixel 1 2 1 2 3 4 (instance demo_host "canvas" 4 4 [])))
  = setPixel 1 2 5 6 7 8 (instance demo_host "canvas" 4 4 []).
Proof.
  apply (setPixel_last_write_wins (instance demo_host "canvas" 4 4 [])).
  eexists. vm_compute. reflexivity.
Defined.

(** ** The buffer holds bytes *)

Lemma Forall_typed_set (d : list Z) (i v : Z) :
  Forall byte d -> Forall byte (typed_set d i v).
Proof.
  intros Hd. unfold typed_set. destruct (0 <=? i); [|exact Hd].
  destruct (decide (Z.to_nat i < length d)%nat) as [Hi|Hi].
  - apply Forall_insert; [exact Hd | apply to_uint8_range].
  - rewrite list_insert_ge by lia. exact Hd.
Qed.

Lemma Forall_written (d : list Z) (index r g b a : Z) :
  Forall byte d -> Forall byte (written d index r g b a).
Proof. intros Hd. unfold written. repeat apply Forall_typed_set. exact Hd. Qed.

Lemma Forall_map_to_uint8 (source : list Z) :
  Forall byte (map to_uint8 source).
Proof. apply Forall_map, Forall_forall. intros v _. apply to_uint8_range. Qed.

(** [render] and [initialize] never write the buffer. *)
Lemma render_data (s : PixelGL) (renderBegin renderFinish : Qc) :
  data (snd (render renderBegin renderFinish s)) = data s.
Proof.
  unfold_methods.
  destruct s as [sf ini cv [g|] wd ht pc bc dt tx pr ld le cs]; reflexivity.
Qed.

Lemma initialize_data (H : host) (v f : string) (s : PixelGL) :
  data (snd (initialize H v f s)) = data s.
Proof.
  unfold_methods.
  destruct s as [sf ini cv [g|] wd ht pc bc dt tx pr ld le cs];
    (destruct (window_fetch H v) as [rv|ev];
     [destruct (window_fetch H f) as [rf|ef]|]);
    compute_methods; try reflexivity; host_cases H rv rf.
Qed.

Lemma holds_bytes_perform (H : host) (c : call) (s : PixelGL) :
  holds_bytes s -> holds_bytes (snd (perform H c s)).
Proof.
  intros (d & Hd & Hbytes). destruct c; cbn [perform].
  - unfold bind. pose proof (initialize_data H vertexShaderURI
                               fragementShaderURI s) as E.
    destruct (initialize H vertexShaderURI fragementShaderURI s)
      as [[r|e] s']; cbn in *; exists d; split; congruence.
  - exists d. split; [|exact Hbytes]. rewrite render_data. exact Hd.
  - rewrite (setPixel_run s d) by exact Hd. cbn [snd].
    eexists. split; [reflexivity|]. apply Forall_written, Hbytes.
  - unfold bind. rewrite (getPixel_run s d) by exact Hd. cbn.
    exists d. split; assumption.
  - destruct (Nat.eq_dec (length source) (length d)) as [E|E].
    + destruct (loadPixelData_match s d source Hd E)
        as (s' & -> & _ & Hdata).
      cbn [snd]. eexists. split; [exact Hdata|]. apply Forall_map_to_uint8.
    + rewrite (loadPixelData_mismatch s d source Hd E). cbn [snd].
      exists d. split; assumption.
Qed.

Lemma holds_bytes_instance (H : host) (canvasID : string) (w h : Z)
    (calls : list call) :
  safe (snd (construct H canvasID w h)) = true ->
  holds_bytes (instance H canvasID w h calls).
Proof.
  intros Hsafe. unfold instance.
  assert (Hstart : holds_bytes (snd (construct H canvasID w h))).
  { destruct (construct_safe H canvasID w h Hsafe)
      as (_ & _ & _ & _ & Hd & _).
    eexists. split; [exact Hd|].
    apply Forall_forall. intros v Hv. apply list_elem_of_In in Hv.
    apply repeat_spec in Hv. subst v. unfold byte. lia. }
  revert Hstart. generalize (snd (construct H canvasID w h)).
  induction calls as [|c calls IH]; intros s Hs; cbn.
  - exact Hs.
  - apply IH, holds_bytes_perform, Hs.
Qed.

(** X6.  On every instance whose constructor succeeded, after any sequence
    of calls, whatever their arguments: every element of the buffer is an
    integer from 0 to 255. *)
Theorem buffer_holds_bytes
    (H : host) (canvasID : string) (w h : Z) (calls : list call) :
  safe (snd (construct H canvasID w h)) = true ->
  exists d,
    data (instance H canvasID w h calls) = Some d
    /\ forall i v, typed_get d i = Some v -> 0 <= v <= 255.
Proof.
  intros Hsafe.
  destruct (holds_bytes_instance H canvasID w h calls Hsafe)
    as (d & Hd & Hbytes).
  exists d. split; [exact Hd|]. intros i v Hget.
  unfold typed_get in Hget. destruct (0 <=? i); [|discriminate].
  apply (proj1 (Forall_lookup _ _) Hbytes _ _ Hget).
Qed.

Lemma buffer_holds_bytes_witness :
  exists d,
    data (instance demo_host "canvas" 2 2
            [CallSetPixel 0 0 300 (-1) 256 1000;
             CallLoadPixelData (map (fun n => n * 100 - 700)
                                    (map Z.of_nat (seq 0 16)))])
    = Some d
    /\ forall i v, typed_get d i = Some v -> 0 <= v <= 255.
Proof.
  apply (buffer_holds_bytes demo_host "canvas" 2 2). reflexivity.
Defined.

(** X7.  On every instance whose constructor succeeded, after any sequence
    of calls: writing back with [setPixel] the channels [getPixel] has just
    read at an in-bounds pixel changes nothing. *)
Theorem getPixel_then_setPixel_changes_nothing
    (H : host) (canvasID : string) (w h : Z) (calls : list call) (x y : Z) :
  safe (snd (construct H canvasID w h)) = true ->
  0 <= x < w -> 0 <= y < h ->
  exists r g b a,
    getPixel x y (instance H canvasID w h calls)
    = (Normal {| px := x; py := y; red := Some r; green := Some g;
                 blue := Some b; alpha := Some a |},
       instance H canvasID w h calls)
    /\ setPixel x y r g b a (instance H canvasID w h calls)
       = (Normal tt, instance H canvasID w h calls).
Proof.
  intros Hsafe Hx Hy.
  destruct (built_instance H canvasID w h Hsafe calls)
    as (Hw & Hh & _ & d & Hd & Hlen).
  destruct (holds_bytes_instance H canvasID w h calls Hsafe)
    as (d' & Hd' & Hbytes).
  rewrite Hd in Hd'. injection Hd' as <-.
  destruct (index_in_bounds w h x y Hx Hy) as [Hlo Hhi].
  set (index := (y * w + x) * 4) in *.
  assert (Hread : forall k, 0 <= k <= 3 ->
            exists v, typed_get d (index + k) = Some v /\ byte v).
  { intros k Hk. unfold typed_get.
    rewrite (proj2 (Z.leb_le 0 (index + k))) by lia.
    destruct (lookup_lt_is_Some_2 d (Z.to_nat (index + k))) as [v Hv]; [lia|].
    exists v. split; [exact Hv|].
    apply (proj1 (Forall_lookup _ _) Hbytes _ _ Hv). }
  destruct (Hread 0) as (r & Hr & Br); [lia|].
  destruct (Hread 1) as (g & Hg & Bg); [lia|].
  destruct (Hread 2) as (b & Hb & Bb); [lia|].
  destruct (Hread 3) as (a & Ha & Ba); [lia|].
  exists r, g, b, a. split.
  - rewrite (getPixel_run _ d) by exact Hd. cbv zeta. rewrite Hw.
    fold index. rewrite Hr, Hg, Hb, Ha. reflexivity.
  - rewrite (setPixel_run _ d) by exact Hd. rewrite Hw. fold index.
    replace (written d index r g b a) with d.
    + rewrite set_data_same by exact Hd. reflexivity.
    + apply typed_ext. intros j. unfold byte in *. unfold written.
      repeat (rewrite typed_get_set; rewrite ?typed_set_length).
      repeat case_decide; try reflexivity;
        match goal with
        | Hc : _ = j /\ _ |- _ => destruct Hc as [<- _]
        end;
        rewrite ?Hr, ?Hg, ?Hb, ?Ha, to_uint8_byte by assumption;
        reflexivity.
Qed.

Lemma getPixel_then_setPixel_changes_nothing_witness :
  exists r g b a,
    getPixel 1 1 (instance demo_host "canvas" 2 2 [CallSetPixel 1 1 9 8 7 6])
    = (Normal {| px := 1; py := 1; red := Some r; green := Some g;
                 blue := Some b; alpha := Some a |},
       instance demo_host "canvas" 2 2 [CallSetPixel 1 1 9 8 7 6])
    /\ setPixel 1 1 r g b a
         (instance demo_host "canvas" 2 2 [CallSetPixel 1 1 9 8 7 6])
       = (Normal tt,
          instance demo_host "canvas" 2 2 [CallSetPixel 1 1 9 8 7 6]).
Proof.
  apply (getPixel_then_setPixel_changes_nothing demo_host "canvas" 2 2);
    first [reflexivity | lia].
Defined.

(** ** The constructor, and an instance it could not build *)

(** Unfolds the constructor down to the host calls. *)
Ltac unfold_constructor :=
  unfold construct, constructor, createEmptyTexture, gl_call, this_gl,
    console_error, new_Uint8Array;
  cbv beta iota delta [bind assign await ret self throw].

(** X8.  The constructor leaves [safe] true exactly when the canvas is
    found, it gives a WebGL context and the buffer of [width * height * 4]
    bytes can be allocated.  When the canvas is not found, or gives no
    context, the constructor returns normally with one diagnostic that
    carries the id it was given, and the instance has neither a context nor
    a buffer.  When the element found is not a canvas, the call of
    [getContext] throws: the constructor throws with it, emits no
    diagnostic, and [safe] is false. *)
Theorem constructor_outcomes
    (H : host) (canvasID : string) (w h : Z) :
  (safe (snd (construct H canvasID w h)) = true <->
   exists element,
     document_querySelector H ("#" ++ canvasID) = Normal (Some element)
     /\ canvas_getContext H element = Normal true
     /\ 0 <= w * h * 4 <= typed_array_max_length H)
  /\ (document_querySelector H ("#" ++ canvasID) = Normal None ->
      fst (construct H canvasID w h) = Normal tt
      /\ console (snd (construct H canvasID w h))
         = [ErrorFindingCanvas canvasID]
      /\ gl (snd (construct H canvasID w h)) = None
      /\ data (snd (construct H canvasID w h)) = None)
  /\ (forall element,
        document_querySelector H ("#" ++ canvasID) = Normal (Some element) ->
        canvas_getContext H element = Normal false ->
        fst (construct H canvasID w h) = Normal tt
        /\ console (snd (construct H canvasID w h))
           = [ErrorGettingContext canvasID]
        /\ gl (snd (construct H canvasID w h)) = None
        /\ data (snd (construct H canvasID w h)) = None)
  /\ (forall element e,
        document_querySelector H ("#" ++ canvasID) = Normal (Some element) ->
        canvas_getContext H element = Throw e ->
        fst (construct H canvasID w h) = Throw e
        /\ console (snd (construct H canvasID w h)) = []
        /\ safe (snd (construct H canvasID w h)) = false
        /\ gl (snd (construct H canvasID w h)) = None
        /\ data (snd (construct H canvasID w h)) = None).
Proof.
  pose proof (construct_cases H canvasID w h) as Hcases. cbv zeta in Hcases.
  split; [|split; [|split]].
  - destruct (document_querySelector H _) as [[element|]|e0].
    + destruct (canvas_getContext H element) as [[|]|e1] eqn:Hctx.
      * destruct (Z.leb_spec 0 (w * h * 4));
          destruct (Z.leb_spec (w * h * 4) (typed_array_max_length H));
          cbn [andb] in Hcases; destruct Hcases as (_ & -> & _);
          (split;
           [ first [ discriminate
                   | intros _; exists element; repeat split;
                     first [exact Hctx | lia] ]
           | intros (el & _ & _ & Hsize); first [reflexivity | exfalso; lia] ]).
      * destruct Hcases as (_ & -> & _). split; [discriminate|].
        intros (el & [= <-] & Hc & _). rewrite Hctx in Hc. discriminate Hc.
      * destruct Hcases as (_ & -> & _). split; [discriminate|].
        intros (el & [= <-] & Hc & _). rewrite Hctx in Hc. discriminate Hc.
    + destruct Hcases as (_ & -> & _). split; [discriminate|].
      intros (el & [=] & _).
    + destruct Hcases as (_ & -> & _). split; [discriminate|].
      intros (el & [=] & _).
  - intros Hq. rewrite Hq in Hcases. tauto.
  - intros element Hq Hctx. rewrite Hq, Hctx in Hcases. tauto.
  - intros element e Hq Hctx. rewrite Hq, Hctx in Hcases. tauto.
Qed.

Lemma constructor_outcomes_witness :
  safe (snd (construct demo_host "canvas" 4 4)) = true
  /\ console (snd (construct demo_host "nothing" 4 4))
     = [ErrorFindingCanvas "nothing"]
  /\ fst (construct div_host "canvas" 4 4)
     = Throw (TypeError "this.canvas.getContext is not a function")
  /\ console (snd (construct div_host "canvas" 4 4)) = [].
Proof.
  destruct (constructor_outcomes demo_host "canvas" 4 4) as [[_ Hsafe] _].
  destruct (constructor_outcomes demo_host "nothing" 4 4)
    as (_ & Hmissing & _).
  destruct (constructor_outcomes div_host "canvas" 4 4)
    as (_ & _ & _ & Hdiv).
  destruct (Hdiv "canvas"
              (TypeError "this.canvas.getContext is not a function")
              eq_refl eq_refl) as (Hthrow & Hconsole & _).
  split; [|split; [|split]].
  - apply Hsafe. exists "canvas".
    repeat split; first [reflexivity | lia | discriminate].
  - apply Hmissing. reflexivity.
  - exact Hthrow.
  - exact Hconsole.
Defined.

Lemma construct_unsafe (H : host) (canvasID : string) (w h : Z) :
  fst (construct H canvasID w h) = Normal tt ->
  safe (snd (construct H canvasID w h)) = false ->
  gl (snd (construct H canvasID w h)) = None
  /\ data (snd (construct H canvasID w h)) = None
  /\ width (snd (construct H canvasID w h)) = 0.
Proof.
  unfold_constructor.
  destruct (document_querySelector H _) as [[element|]|e]; cbn;
    try discriminate; [|repeat split].
  destruct (canvas_getContext H element) as [[|]|e]; cbn;
    try discriminate; [|repeat split].
  destruct (_ || _); cbn; discriminate.
Qed.

(** X9.  When the constructor has returned and left [safe] false, the
    instance is unusable: [setPixel], [getPixel], [loadPixelData] and
    [render] each throw a [TypeError] and leave the instance as it is, and
    [initialize] never sets [initialized]. *)
Theorem unsafe_instance_throws
    (H : host) (canvasID : string) (w h : Z) :
  fst (construct H canvasID w h) = Normal tt ->
  safe (snd (construct H canvasID w h)) = false ->
  let s := snd (construct H canvasID w h) in
  (forall x y r g b a,
     setPixel x y r g b a s = (Throw (TypeError "this.data is undefined"), s))
  /\ (forall x y,
        getPixel x y s = (Throw (TypeError "this.data is undefined"), s))
  /\ (forall source,
        loadPixelData source s
        = (Throw (TypeError "this.data is undefined"), s))
  /\ (forall renderBegin renderFinish,
        render renderBegin renderFinish s
        = (Throw (TypeError "this.gl is null or undefined"), s))
  /\ (forall H' v f, initialized (snd (initialize H' v f s)) = false).
Proof.
  intros Hret Hunsafe s.
  destruct (construct_unsafe H canvasID w h Hret Hunsafe) as (Hgl & Hdata & _).
  fold s in Hgl, Hdata.
  assert (Hini : initialized s = false).
  { subst s. revert Hret Hunsafe. unfold_constructor.
    destruct (document_querySelector H _) as [[element|]|e]; cbn;
      try discriminate; [|reflexivity].
    destruct (canvas_getContext H element) as [[|]|e]; cbn;
      try discriminate; [|reflexivity].
    destruct (_ || _); cbn; discriminate. }
  repeat split.
  - intros. unfold setPixel, data_store, this_data.
    cbv beta iota delta [bind self ret assign throw].
    rewrite Hdata. reflexivity.
  - intros. unfold getPixel, data_load, this_data.
    cbv beta iota delta [bind self ret assign throw].
    rewrite Hdata. reflexivity.
  - intros. unfold loadPixelData, this_data.
    cbv beta iota delta [bind self ret assign throw].
    rewrite Hdata. reflexivity.
  - intros. unfold_methods. rewrite Hgl. reflexivity.
  - intros. rewrite initialize_flag, Hgl, Hini. reflexivity.
Qed.

Lemma unsafe_instance_throws_witness :
  setPixel 0 0 255 0 0 255 (snd (construct demo_host "nothing" 4 4))
  = (Throw (TypeError "this.data is undefined"),
     snd (construct demo_host "nothing" 4 4))
  /\ render 0%Qc 1%Qc (snd (construct demo_host "nothing" 4 4))
     = (Throw (TypeError "this.gl is null or undefined"),
        snd (construct demo_host "nothing" 4 4)).
Proof.
  destruct (unsafe_instance_throws demo_host "nothing" 4 4)
    as (Hset & _ & _ & Hrender & _); [reflexivity | reflexivity |].
  split; [apply Hset | apply Hrender].
Defined.

Lemma lookup_repeat (v : Z) (n i : nat) :
  (i < n)%nat -> repeat v n !! i = Some v.
Proof.
  revert i. induction n as [|n IH]; intros i Hi; [lia|].
  destruct i as [|i]; cbn; [reflexivity | apply IH; lia].
Qed.

(** X10.  Right after a successful constructor every in-bounds pixel reads
    as transparent black: [getPixel] returns [{x, y, 0, 0, 0, 0}]. *)
Theorem new_instance_is_transparent_black
    (H : host) (canvasID : string) (w h : Z) (x y : Z) :
  safe (snd (construct H canvasID w h)) = true ->
  0 <= x < w -> 0 <= y < h ->
  fst (getPixel x y (snd (construct H canvasID w h)))
  = Normal {| px := x; py := y; red := Some 0; green := Some 0;
              blue := Some 0; alpha := Some 0 |}.
Proof.
  intros Hsafe Hx Hy.
  destruct (construct_safe H canvasID w h Hsafe)
    as (_ & (Hw & _) & _ & _ & Hd & Hsize).
  rewrite (getPixel_run _ _ x y Hd). cbn [fst]. rewrite Hw.
  destruct (index_in_bounds w h x y Hx Hy) as [Hlo Hhi].
  assert (Hzero : forall k, 0 <= k <= 3 ->
            typed_get (repeat 0 (Z.to_nat (w * h * 4)))
              ((y * w + x) * 4 + k) = Some 0).
  { intros k Hk. unfold typed_get.
    rewrite (proj2 (Z.leb_le 0 _)) by lia.
    apply lookup_repeat. lia. }
  rewrite !Hzero by lia. reflexivity.
Qed.

Lemma new_instance_is_transparent_black_witness :
  fst (getPixel 3 3 (snd (construct demo_host "canvas" 4 4)))
  = Normal {| px := 3; py := 3; red := Some 0; green := Some 0;
              blue := Some 0; alpha := Some 0 |}.
Proof.
  apply (new_instance_is_transparent_black demo_host "canvas" 4 4);
    first [reflexivity | lia].
Defined.

(** ** Two memory spaces *)

(** X26.  A successful constructor leaves the canvas at the size asked for
    when the width and the height are in 0..2147483647 (a canvas takes no
    other size: it is then left at what its [width] and [height]
    attributes make of the numbers, 300 by 150 for a negative one), has
    asked for a viewport of the size it was given and for a texture image of
    that size with the zeroed buffer, has issued no draw call and has no
    program, [pixelCount = width * height] and
    [byteCount = pixelCount * 4], the render statistics are 0 and the
    console is empty. *)
Theorem constructor_success_effects
    (H : host) (canvasID : string) (w h : Z) :
  safe (snd (construct H canvasID w h)) = true ->
  let s := snd (construct H canvasID w h) in
  exists g,
    gl s = Some g
    /\ canvas_width g = canvas_dimension 300 w
    /\ canvas_height g = canvas_dimension 150 h
    /\ (0 <= w <= 2147483647 -> canvas_width g = w)
    /\ (0 <= h <= 2147483647 -> canvas_height g = h)
    /\ (w < 0 -> - 2147483648 <= w -> canvas_width g = 300)
    /\ (h < 0 -> - 2147483648 <= h -> canvas_height g = 150)
    /\ viewport g = (0, 0, w, h)
    /\ texture_image g = Some (w, h, Some (repeat 0 (Z.to_nat (w * h * 4))))
    /\ draw_calls g = 0%nat
    /\ current_program g = None
    /\ this_program s = None
    /\ pixelCount s = w * h /\ byteCount s = w * h * 4
    /\ lastRenderDuration s = 0%Qc /\ lastRenderEnded s = 0%Qc
    /\ console s = [].
Proof.
  unfold_constructor.
  destruct (document_querySelector H _) as [[element|]|e]; cbn;
    try discriminate.
  destruct (canvas_getContext H element) as [[|]|e]; cbn; try discriminate.
  destruct (_ || _); cbn; try discriminate.
  intros _. eexists. split; [reflexivity|].
  cbn [canvas_width canvas_height gl_set_canvas_size gl_viewport
       gl_texImage2D].
  split; [reflexivity|]. split; [reflexivity|].
  split; [apply canvas_dimension_in_range|].
  split; [apply canvas_dimension_in_range|].
  split; [intros Hneg Hlow; apply canvas_dimension_negative; lia|].
  split; [intros Hneg Hlow; apply canvas_dimension_negative; lia|].
  repeat split.
Qed.

Lemma constructor_success_effects_witness :
  exists g,
    gl (snd (construct demo_host "canvas" 4 4)) = Some g
    /\ canvas_width g = 4 /\ canvas_height g = 4
    /\ viewport g = (0, 0, 4, 4)
    /\ texture_image g = Some (4, 4, Some (repeat 0 (Z.to_nat (4 * 4 * 4)))).
Proof.
  destruct (constructor_success_effects demo_host "canvas" 4 4)
    as (g & Hg & _ & _ & Hcw & Hch & _ & _ & Hview & Htex & _);
    [reflexivity|].
  exists g. split; [exact Hg|].
  split; [apply Hcw; lia|]. split; [apply Hch; lia|].
  split; assumption.
Defined.

(** X27.  Writes reach the texture only through [render]: on every
    instance whose constructor succeeded, after any sequence of calls,
    [setPixel], [getPixel] and [loadPixelData] leave the WebGL context, its
    texture image included, exactly as it was. *)
Theorem pixel_writes_are_not_uploaded
    (H : host) (canvasID : string) (w h : Z) (calls : list call) :
  safe (snd (construct H canvasID w h)) = true ->
  let s := instance H canvasID w h calls in
  (forall x y r g b a, gl (snd (setPixel x y r g b a s)) = gl s)
  /\ (forall x y, gl (snd (getPixel x y s)) = gl s)
  /\ (forall source, gl (snd (loadPixelData source s)) = gl s).
Proof.
  intros Hsafe s.
  destruct (built_instance H canvasID w h Hsafe calls)
    as (_ & _ & _ & d & Hd & _).
  fold s in Hd. repeat split.
  - intros. rewrite (setPixel_run s d) by exact Hd. reflexivity.
  - intros. rewrite (getPixel_run s d) by exact Hd. reflexivity.
  - intros source.
    destruct (Nat.eq_dec (length source) (length d)) as [E|E].
    + destruct (loadPixelData_match s d source Hd E) as (s' & -> & Hsame & _).
      apply same_but_data_fields in Hsame. cbn [snd]. tauto.
    + rewrite (loadPixelData_mismatch s d source Hd E). reflexivity.
Qed.

Lemma pixel_writes_are_not_uploaded_witness :
  gl (snd (setPixel 0 0 255 0 0 255
             (instance demo_host "canvas" 4 4 [CallRender 0%Qc 1%Qc])))
  = gl (instance demo_host "canvas" 4 4 [CallRender 0%Qc 1%Qc]).
Proof.
  destruct (pixel_writes_are_not_uploaded demo_host "canvas" 4 4
              [CallRender 0%Qc 1%Qc]) as (Hset & _); [reflexivity|].
  apply Hset.
Defined.

(** ** Renderer *)

Lemma render_state (s : PixelGL) (g : gl_context)
    (renderBegin renderFinish : Qc) :
  gl s = Some g ->
  render renderBegin renderFinish s
  = (Normal tt,
     set_render_stats (renderFinish - renderBegin)%Qc renderFinish
       (set_gl (Some (gl_drawArrays
                        (gl_texImage2D (width s) (height s) (data s) g))) s)).
Proof.
  intros Hg. unfold_methods. rewrite Hg.
  destruct s as [sf ini cv g' wd ht pc bc dt tx pr ld le cs].
  reflexivity.
Qed.



Lemma run_calls_app (H : host) (calls more : list call) (s : PixelGL) :
  run_calls H (calls ++ more)%list s = run_calls H more (run_calls H calls s).
Proof. unfold run_calls. apply fold_left_app. Qed.

Lemma renders_count (H : host) (renders : list call) :
  Forall is_render renders ->
  forall s, (exists g, gl s = Some g) ->
    draws (run_calls H renders s) = (draws s + length renders)%nat
    /\ data (run_calls H renders s) = data s
    /\ exists g, gl (run_calls H renders s) = Some g.
Proof.
  induction 1 as [|c renders Hc _ IH]; intros s [g Hg].
  - cbn. split; [lia|]. split; [reflexivity | eauto].
  - destruct c; try contradiction.
    change (run_calls H (CallRender renderBegin renderFinish :: renders) s)
      with (run_calls H renders (snd (render renderBegin renderFinish s))).
    rewrite (render_state s g) by exact Hg. cbn [snd].
    destruct (IH (set_render_stats (renderFinish - renderBegin)%Qc
                    renderFinish
                    (set_gl (Some (gl_drawArrays
                                     (gl_texImage2D (width s) (height s)
                                        (data s) g))) s)))
      as (Hdraws & Hdata & Hgl); [eexists; reflexivity|].
    split; [|split; [exact Hdata | exact Hgl]].
    rewrite Hdraws. unfold draws. rewrite Hg. cbn. lia.
Qed.

(** X12.  The class neither batches nor skips render requests: on every
    instance whose constructor succeeded, after any sequence of calls, [n]
    further [render] calls issue [n] draw calls, one each, and leave the
    buffer as it was. *)
Theorem every_render_draws
    (H : host) (canvasID : string) (w h : Z) (calls renders : list call) :
  safe (snd (construct H canvasID w h)) = true ->
  Forall is_render renders ->
  draws (instance H canvasID w h (calls ++ renders)%list)
  = (draws (instance H canvasID w h calls) + length renders)%nat
  /\ data (instance H canvasID w h (calls ++ renders)%list)
     = data (instance H canvasID w h calls).
Proof.
  intros Hsafe Hrenders. unfold instance. rewrite run_calls_app.
  destruct (built_instance H canvasID w h Hsafe calls)
    as (_ & _ & (g & Hg & _) & _).
  destruct (renders_count H renders Hrenders
              (run_calls H calls (snd (construct H canvasID w h))))
    as (Hdraws & Hdata & _); [exists g; exact Hg|].
  split; assumption.
Qed.

Lemma every_render_draws_witness :
  draws (instance demo_host "canvas" 2 2
           ([CallSetPixel 0 0 1 2 3 4]
            ++ [CallRender 0%Qc 1%Qc; CallRender 1%Qc 2%Qc;
                CallRender 2%Qc 2%Qc])%list)
  = (draws (instance demo_host "canvas" 2 2 [CallSetPixel 0 0 1 2 3 4])
     + length [CallRender 0%Qc 1%Qc; CallRender 1%Qc 2%Qc;
               CallRender 2%Qc 2%Qc])%nat.
Proof.
  apply (every_render_draws demo_host "canvas" 2 2);
    [reflexivity | repeat constructor].
Defined.

(** ** Bulk load *)

(** X13.  On every instance whose constructor succeeded, after any sequence
    of calls: [loadPixelData] with a source of [width * height * 4] integers
    of any size stores each of them modulo 256, and [getPixel] at an
    in-bounds pixel called next returns the four elements of the source at
    the index of the pixel, modulo 256. *)
Theorem loadPixelData_then_getPixel
    (H : host) (canvasID : string) (w h : Z) (calls : list call)
    (source : list Z) (x y : Z) :
  safe (snd (construct H canvasID w h)) = true ->
  Z.of_nat (length source) = w * h * 4 ->
  0 <= x < w -> 0 <= y < h ->
  let index := (y * w + x) * 4 in
  exists s',
    loadPixelData source (instance H canvasID w h calls) = (Normal tt, s')
    /\ data s' = Some (map (fun v => v mod 256) source)
    /\ exists r g b a,
         typed_get source (index + 0) = Some r
         /\ typed_get source (index + 1) = Some g
         /\ typed_get source (index + 2) = Some b
         /\ typed_get source (index + 3) = Some a
         /\ getPixel x y s'
            = (Normal {| px := x; py := y;
                         red := Some (r mod 256); green := Some (g mod 256);
                         blue := Some (b mod 256);
                         alpha := Some (a mod 256) |}, s').
Proof.
  intros Hsafe Hsize Hx Hy index.
  destruct (built_instance H canvasID w h Hsafe calls)
    as (Hw & Hh & _ & d & Hd & Hlen).
  destruct (loadPixelData_match _ d source Hd)
    as (s' & Hrun & Hsame & Hdata); [lia|].
  exists s'. split; [exact Hrun|]. split; [exact Hdata|].
  destruct (index_in_bounds w h x y Hx Hy) as [Hlo Hhi]. fold index in Hlo, Hhi.
  assert (Hread : forall k, 0 <= k <= 3 ->
            exists v, typed_get source (index + k) = Some v
                      /\ typed_get (map to_uint8 source) (index + k)
                         = Some (v mod 256)).
  { intros k Hk. unfold typed_get.
    rewrite (proj2 (Z.leb_le 0 (index + k))) by lia.
    destruct (lookup_lt_is_Some_2 source (Z.to_nat (index + k)))
      as [v Hv]; [lia|].
    exists v. split; [exact Hv|].
    rewrite list_lookup_fmap, Hv. reflexivity. }
  destruct (Hread 0) as (r & Hr & Hr'); [lia|].
  destruct (Hread 1) as (g & Hg & Hg'); [lia|].
  destruct (Hread 2) as (b & Hb & Hb'); [lia|].
  destruct (Hread 3) as (a & Ha & Ha'); [lia|].
  exists r, g, b, a. repeat (split; [assumption|]).
  rewrite (getPixel_run s' _ x y Hdata). cbv zeta.
  apply same_but_data_fields in Hsame. destruct Hsame as (-> & _).
  rewrite Hw. fold index. rewrite Hr', Hg', Hb', Ha'. reflexivity.
Qed.

Lemma loadPixelData_then_getPixel_witness :
  exists s',
    loadPixelData [300; -1; 256; 255; 1; 2; 3; 4]
      (instance demo_host "canvas" 2 1 [])
    = (Normal tt, s')
    /\ data s' = Some [44; 255; 0; 255; 1; 2; 3; 4].
Proof.
  destruct (loadPixelData_then_getPixel demo_host "canvas" 2 1 []
              [300; -1; 256; 255; 1; 2; 3; 4] 0 0)
    as (s' & Hrun & Hdata & _); first [reflexivity | lia | idtac].
  exists s'. split; [exact Hrun | exact Hdata].
Defined.

(** ** Initialization, continued *)

(** The state a successful [initialize] leaves. *)
Lemma initialize_success (H : host) (v f : string) (s : PixelGL)
    (g : gl_context) (rv rf : response) :
  gl s = Some g ->
  fetch H v = Normal rv -> status rv = 200 ->
  fetch H f = Normal rf -> status rf = 200 ->
  gl_compile_status H VERTEX_SHADER (text rv) = true ->
  gl_compile_status H FRAGMENT_SHADER (text rf) = true ->
  let program :=
    {| attached :=
         [ {| shader_type := VERTEX_SHADER; shader_source := text rv |};
           {| shader_type := FRAGMENT_SHADER; shader_source := text rf |} ] |}
  in
  gl_link_status H program = true ->
  initialize H v f s
  = (Normal Undefined,
     set_initialized true
       (set_gl
          (Some
             (gl_uniformMatrix4fv
                (scaleMatrix
                   (translateMatrix
                      (map fround
                         [ of_Z 2 / (of_Z (canvas_width g) - of_Z 0);
                           of_Z 0; of_Z 0; of_Z 0;
                           of_Z 0;
                           of_Z 2 / (of_Z 0 - of_Z (canvas_height g));
                           of_Z 0; of_Z 0;
                           of_Z 0; of_Z 0;
                           of_Z 2 / (of_Z (- 1) - of_Z 1); of_Z 0;
                           (of_Z 0 + of_Z (canvas_width g))
                           / (of_Z 0 - of_Z (canvas_width g));
                           (of_Z (canvas_height g) + of_Z 0)
                           / (of_Z (canvas_height g) - of_Z 0);
                           (of_Z (- 1) + of_Z 1) / (of_Z (- 1) - of_Z 1);
                           of_Z 1 ]%js)
                      (of_Z 0) (of_Z 0))
                   (of_Z (width s)) (of_Z (height s)))
                (gl_uniform1i 0
                   (gl_bufferData quadVertices
                      (gl_bufferData quadVertices
                         (gl_useProgram program g))))))
          (set_program (Some program) s))).
Proof.
  intros Hg Hv Hsv Hf Hsf Hcv Hcf program Hlink. subst program.
  destruct (fetch_inv H v rv Hv) as (wv & Hwv & Ev & _ & Htv).
  destruct (fetch_inv H f rf Hf) as (wf & Hwf & Ef & _ & Htf).
  unfold_methods. rewrite Hwv, Hwf.
  cbn [promise_all check_responses]. rewrite Ev, Ef, Hsv, Hsf.
  cbn [Z.eqb negb Pos.eqb]. rewrite Htv, Htf.
  destruct s as [sf ini cv g' wd ht pc bc dt tx pr ld le cs].
  cbn in Hg. subst g'.
  cbn -[Z.eqb VERTEX_SHADER FRAGMENT_SHADER app translateMatrix scaleMatrix
        number_div number_sub number_add number_mul of_Z fround map
        quadVertices].
  rewrite Hcv, Hcf.
  cbn -[Z.eqb VERTEX_SHADER FRAGMENT_SHADER app translateMatrix scaleMatrix
        number_div number_sub number_add number_mul of_Z fround map
        quadVertices].
  cbn [fold_left app attached]. rewrite Hlink. reflexivity.
Qed.

(** X18.  On every instance whose constructor succeeded, after any sequence
    of calls: when the five steps succeed, [initialize] uploads the
    orthographic matrix of the canvas, translated by [(0, 0)] and scaled by
    the width and the height.  The scaling by the size undoes the division
    by the size of the orthographic matrix only up to the rounding of a
    [Float32Array]: for the 960 by 640 of the demonstration page the matrix
    uploaded is [[2, 0, 0, 0,  0, -2, 0, 0,  0, 0, -1, 0,  -1, 1, -1, 1]],
    and for 41 by 41 its first element is 16777215 / 8388608: not 2, but the
    float32 just below it. *)
Theorem initialize_uploads_rounded_transform
    (H : host) (canvasID : string) (w h : Z) (calls : list call)
    (v f : string) :
  safe (snd (construct H canvasID w h)) = true ->
  all_steps_succeed H v f = true ->
  exists g' m,
    gl (snd (initialize H v f (instance H canvasID w h calls))) = Some g'
    /\ uniform_matrix g' = Some m
    /\ (forall orthographic,
          fst (createOrthographicMatrix (instance H canvasID w h calls))
          = Normal orthographic ->
          m = scaleMatrix (translateMatrix orthographic (of_Z 0) (of_Z 0))
                (of_Z w) (of_Z h))
    /\ (w = 960 -> h = 640 ->
        m = map of_Z [ 2; 0; 0; 0;
                       0; - 2; 0; 0;
                       0; 0; - 1; 0;
                       - 1; 1; - 1; 1 ])
    /\ (w = 41 -> h = 41 ->
        value (mat_get m 0) = Some (16777215 # 8388608)%Q
        /\ mat_get m 0 <> of_Z 2).
Proof.
  intros Hsafe Hsteps.
  destruct (built_instance H canvasID w h Hsafe calls)
    as (Ew & Eh & (g & Hg & Ecw & Ech) & _).
  apply all_steps_succeed_true in Hsteps
    as (rv & rf & Hv & Hsv & Hf & Hsf & Hcv & Hcf & Hlink).
  rewrite (initialize_success H v f _ g rv rf) by assumption.
  eexists. eexists. split; [reflexivity|].
  cbn [uniform_matrix gl_uniformMatrix4fv]. split; [reflexivity|].
  rewrite (createOrthographicMatrix_run _ g Hg), Ecw, Ech, Ew, Eh.
  split; [intros orthographic [= <-]; reflexivity|].
  split.
  - intros -> ->. vm_compute. reflexivity.
  - intros -> ->. split; vm_compute; [reflexivity | discriminate].
Qed.

Lemma initialize_uploads_rounded_transform_witness :
  exists g' m,
    gl (snd (initialize demo_host "shaders/pixelGL.vert"
               "shaders/pixelGL.frag"
               (instance demo_host "canvas" 41 41 []))) = Some g'
    /\ uniform_matrix g' = Some m
    /\ value (mat_get m 0) = Some (16777215 # 8388608)%Q.
Proof.
  destruct (initialize_uploads_rounded_transform demo_host "canvas" 41 41 []
              "shaders/pixelGL.vert" "shaders/pixelGL.frag")
    as (g' & m & Hg' & Hm & _ & _ & Hsmall); [reflexivity | reflexivity |].
  exists g', m. split; [exact Hg'|]. split; [exact Hm|].
  apply Hsmall; reflexivity.
Defined.

(** X19.  On an instance that has a context, when the five steps succeed
    [initialize] returns [undefined] and leaves: the program made of the
    vertex shader and the fragment shader, in that order, in [this.program]
    and in use in the context; two more array buffers, each holding the six
    vertices of the quad; the texture uniform set to unit 0; [initialized]
    true.  It logs nothing, deletes no shader and no program, and leaves the
    pixel buffer alone. *)
Theorem initialize_success_effects
    (H : host) (v f : string) (s : PixelGL) (g : gl_context) :
  gl s = Some g ->
  all_steps_succeed H v f = true ->
  exists rv rf g',
    fetch H v = Normal rv /\ fetch H f = Normal rf
    /\ let program :=
         {| attached :=
              [ {| shader_type := VERTEX_SHADER; shader_source := text rv |};
                {| shader_type := FRAGMENT_SHADER;
                   shader_source := text rf |} ] |} in
       fst (initialize H v f s) = Normal Undefined
       /\ gl (snd (initialize H v f s)) = Some g'
       /\ this_program (snd (initialize H v f s)) = Some program
       /\ current_program g' = Some program
       /\ array_buffers g'
          = (array_buffers g ++ [quadVertices; quadVertices])%list
       /\ uniform_texture g' = Some 0
       /\ deleted_shaders g' = deleted_shaders g
       /\ deleted_programs g' = deleted_programs g
       /\ initialized (snd (initialize H v f s)) = true
       /\ console (snd (initialize H v f s)) = console s
       /\ data (snd (initialize H v f s)) = data s.
Proof.
  intros Hg Hsteps.
  apply all_steps_succeed_true in Hsteps
    as (rv & rf & Hv & Hsv & Hf & Hsf & Hcv & Hcf & Hlink).
  exists rv, rf. eexists. split; [exact Hv|]. split; [exact Hf|].
  intros program.
  rewrite (initialize_success H v f s g rv rf) by assumption.
  split; [reflexivity|]. split; [reflexivity|].
  cbn -[app quadVertices]. rewrite <- app_assoc. repeat split.
Qed.

Lemma initialize_success_effects_witness :
  fst (initialize demo_host "shaders/pixelGL.vert" "shaders/pixelGL.frag"
         (instance demo_host "canvas" 4 4 [])) = Normal Undefined.
Proof.
  destruct (initialize_success_effects demo_host "shaders/pixelGL.vert"
              "shaders/pixelGL.frag" (instance demo_host "canvas" 4 4 [])
              (gl_texImage2D 4 4 (Some (repeat 0 64))
                 (gl_viewport 0 0 4 4
                    (gl_set_canvas_size 4 4 fresh_context))))
    as (rv & rf & g' & _ & _ & Hret & _);
    [vm_compute; reflexivity | reflexivity |].
  exact Hret.
Defined.

(** X20.  The class never releases a shader that compiled: on an instance
    that has a context, when both fetches resolve with status 200,
    [initialize] deletes exactly the shaders whose compilation failed, and
    deletes the program exactly when both compiled and the link failed.  A
    vertex shader that compiled stays allocated when the fragment shader
    does not compile, and both shaders stay allocated after a failed link
    and after a success. *)
Theorem initialize_deletes_only_what_failed
    (H : host) (v f : string) (s : PixelGL) (g : gl_context)
    (rv rf : response) :
  gl s = Some g ->
  fetch H v = Normal rv -> status rv = 200 ->
  fetch H f = Normal rf -> status rf = 200 ->
  let vertex :=
    {| shader_type := VERTEX_SHADER; shader_source := text rv |} in
  let fragment :=
    {| shader_type := FRAGMENT_SHADER; shader_source := text rf |} in
  let compiled_v := gl_compile_status H VERTEX_SHADER (text rv) in
  let compiled_f := gl_compile_status H FRAGMENT_SHADER (text rf) in
  let linked := gl_link_status H {| attached := [vertex; fragment] |} in
  exists g',
    gl (snd (initialize H v f s)) = Some g'
    /\ deleted_shaders g'
       = ((if compiled_f then [] else [fragment])
          ++ (if compiled_v then [] else [vertex])
          ++ deleted_shaders g)%list
    /\ deleted_programs g'
       = ((if compiled_v && compiled_f && negb linked
           then [ {| attached := [vertex; fragment] |} ] else [])
          ++ deleted_programs g)%list.
Proof.
  intros Hg Hv Hsv Hf Hsf. cbv zeta.
  destruct (fetch_inv H v rv Hv) as (wv & Hwv & Ev & Etv & Htv).
  destruct (fetch_inv H f rf Hf) as (wf & Hwf & Ef & Etf & Htf).
  unfold_methods. rewrite Hwv, Hwf.
  cbn [promise_all check_responses]. rewrite Ev, Ef, Hsv, Hsf.
  cbn [Z.eqb negb Pos.eqb]. rewrite Htv, Htf.
  destruct s as [sf ini cv g' wd ht pc bc dt tx pr ld le cs].
  cbn in Hg. subst g'.
  cbn -[Z.eqb VERTEX_SHADER FRAGMENT_SHADER app translateMatrix scaleMatrix
        of_Z map quadVertices].
  destruct (gl_compile_status H VERTEX_SHADER (text rv));
    destruct (gl_compile_status H FRAGMENT_SHADER (text rf));
    cbn -[Z.eqb VERTEX_SHADER FRAGMENT_SHADER app translateMatrix
          scaleMatrix of_Z map quadVertices];
    try (eexists; repeat split; reflexivity).
  cbn [fold_left app attached].
  destruct (gl_link_status H _);
    cbn -[Z.eqb VERTEX_SHADER FRAGMENT_SHADER app translateMatrix
          scaleMatrix of_Z map quadVertices];
    eexists; repeat split; reflexivity.
Qed.

Lemma initialize_deletes_only_what_failed_witness :
  exists g',
    gl (snd (initialize broken_fragment_host "shaders/pixelGL.vert"
               "shaders/pixelGL.frag" broken_fragment_instance)) = Some g'
    /\ deleted_shaders g'
       = [ {| shader_type := FRAGMENT_SHADER;
              shader_source := "void main() { }" |} ].
Proof.
  destruct (initialize_deletes_only_what_failed broken_fragment_host
              "shaders/pixelGL.vert" "shaders/pixelGL.frag"
              broken_fragment_instance
              (gl_texImage2D 4 4 (Some (repeat 0 64))
                 (gl_viewport 0 0 4 4
                    (gl_set_canvas_size 4 4 fresh_context)))
              (ok_response "void main() { }")
              (ok_response "void main() { }"))
    as (g' & Hg & Hshaders & _);
    [vm_compute; reflexivity | reflexivity | reflexivity | reflexivity
    | reflexivity |].
  exists g'. split; [exact Hg | exact Hshaders].
Defined.





(** X23.  Without a context the compilation cannot start: on an instance
    whose [this.gl] is [null] or [undefined], when both fetches resolve with
    status 200, [initialize] throws a [TypeError] and changes nothing, no
    diagnostic is logged. *)
Theorem initialize_without_context_throws
    (H : host) (v f : string) (s : PixelGL) (rv rf : response) :
  gl s = None ->
  fetch H v = Normal rv -> status rv = 200 ->
  fetch H f = Normal rf -> status rf = 200 ->
  initialize H v f s
  = (Throw (TypeError "this.gl is null or undefined"), s).
Proof.
  intros Hg Hv Hsv Hf Hsf.
  destruct (fetch_inv H v rv Hv) as (wv & Hwv & Ev & Etv & Htv).
  destruct (fetch_inv H f rf Hf) as (wf & Hwf & Ef & Etf & Htf).
  unfold_methods. rewrite Hwv, Hwf.
  cbn [promise_all check_responses]. rewrite Ev, Ef, Hsv, Hsf.
  cbn [Z.eqb negb Pos.eqb]. rewrite Htv, Htf, Hg. reflexivity.
Qed.

Lemma initialize_without_context_throws_witness :
  initialize demo_host "shaders/pixelGL.vert" "shaders/pixelGL.frag"
    (snd (construct demo_host "nothing" 4 4))
  = (Throw (TypeError "this.gl is null or undefined"),
     snd (construct demo_host "nothing" 4 4)).
Proof.
  apply (initialize_without_context_throws demo_host "shaders/pixelGL.vert"
           "shaders/pixelGL.frag" _ (ok_response "void main() { }")
           (ok_response "void main() { }"));
    reflexivity.
Defined.

(** ** The demonstration page *)

Lemma js_rem_200 (seed : Z) : 0 <= seed -> 0 <= js_rem seed 200 < 200.
Proof. intros Hs. unfold js_rem. apply Z.rem_bound_pos; lia. Qed.

Lemma getPixel_pixel_of (s : PixelGL) (d : list Z) (x y : Z) :
  data s = Some d ->
  getPixel x y s = (Normal (pixel_of (width s) d x y), s).
Proof. intros Hd. rewrite (getPixel_run s d x y Hd). reflexivity. Qed.

Lemma written_length_nat (d : list Z) (index r g b a : Z) :
  length (written d index r g b a) = length d.
Proof. unfold written. rewrite !typed_set_length. reflexivity. Qed.

Lemma written_length_eq (d : list Z) (index r g b a : Z) :
  Z.of_nat (length (written d index r g b a)) = Z.of_nat (length d).
Proof. rewrite written_length_nat. reflexivity. Qed.

Section Pattern.

Variables w h : Z.

Lemma pattern_written (d : list Z) (x y r g b : Z) :
  Z.of_nat (length d) = w * h * 4 ->
  0 <= x < w -> 0 <= y < h ->
  0 <= r < 200 -> 0 <= g < 200 -> 0 <= b < 200 ->
  pattern_pixel (pixel_of w (written d ((y * w + x) * 4) r g b 255) x y).
Proof.
  intros Hlen Hx Hy Hr Hg Hb.
  destruct (index_in_bounds w h x y Hx Hy) as [Hlo Hhi].
  destruct (written_read d ((y * w + x) * 4) r g b 255)
    as (Er & Eg & Eb & Ea); [lia | lia |].
  unfold pattern_pixel, pixel_of. cbn [red green blue alpha].
  rewrite Er, Eg, Eb, Ea, !to_uint8_byte by lia.
  repeat split; eauto.
Qed.

Lemma pixel_of_written_other (d : list Z) (x y r g b a x' y' : Z) :
  0 <= x < w -> 0 <= y < h -> 0 <= x' < w -> 0 <= y' < h ->
  (x, y) <> (x', y') ->
  pixel_of w (written d ((y * w + x) * 4) r g b a) x' y' = pixel_of w d x' y'.
Proof.
  intros Hx Hy Hx' Hy' Hne.
  pose proof (index_apart w h x y x' y' Hx Hy Hx' Hy' Hne) as Hapart.
  unfold pixel_of. cbv zeta. rewrite !written_out by lia. reflexivity.
Qed.

(** The inner loop: it returns normally with a seed that is not negative,
    keeps the pattern pixels there are and makes the rest of the column
    pattern pixels. *)
Lemma generatePattern_rows_run (x : Z) (n : nat) :
  0 <= x < w ->
  forall (y seed : Z) (s : PixelGL) (d : list Z),
    data s = Some d -> Z.of_nat (length d) = w * h * 4 -> width s = w ->
    0 <= y -> y + Z.of_nat n = h -> 0 <= seed ->
    exists seed' s' d',
      generatePattern_rows n x y seed s = (Normal seed', s')
      /\ 0 <= seed'
      /\ same_but_data s s'
      /\ data s' = Some d'
      /\ length d' = length d
      /\ forall x' y',
           0 <= x' < w -> 0 <= y' < h ->
           pattern_pixel (pixel_of w d x' y') \/ (x' = x /\ y <= y') ->
           pattern_pixel (pixel_of w d' x' y').
Proof.
  intros Hx. induction n as [|n IH]; intros y seed s d Hd Hlen Hw Hy Hn Hseed;
    cbn [generatePattern_rows].
  - exists seed, s, d. split; [reflexivity|]. split; [exact Hseed|].
    split; [apply same_but_data_refl|]. split; [exact Hd|].
    split; [reflexivity|].
    intros x' y' Hx' Hy' [Hgood | [_ Hrow]]; [exact Hgood | lia].
  - set (seed1 := seed + (if truthy (js_rem y 7) then 61 else 127)).
    set (seed2 := seed1 + (if truthy (js_rem y 13) then 89 else 521)).
    set (seed3 := seed2 + (if truthy (js_rem x 17) then 107 else 607)).
    assert (H1 : 0 <= seed1)
      by (unfold seed1; destruct (truthy (js_rem y 7)); lia).
    assert (H2 : 0 <= seed2)
      by (unfold seed2; destruct (truthy (js_rem y 13)); lia).
    assert (H3 : 0 <= seed3)
      by (unfold seed3; destruct (truthy (js_rem x 17)); lia).
    unfold bind at 1. rewrite (setPixel_run s d) by exact Hd. rewrite Hw.
    set (d1 := written d ((y * w + x) * 4) (js_rem seed1 200)
                 (js_rem seed2 200) (js_rem seed3 200) 255).
    destruct (IH (y + 1) seed3 (set_data (Some d1) s) d1)
      as (seed' & s' & d' & Hrun & Hseed' & Hsame & Hd' & Hlen' & Hgood);
      try first [reflexivity | lia | exact Hw].
    { subst d1. rewrite written_length_eq. exact Hlen. }
    exists seed', s', d'. split; [exact Hrun|]. split; [exact Hseed'|].
    split; [unfold same_but_data in *; rewrite Hsame; reflexivity|].
    split; [exact Hd'|].
    split; [rewrite Hlen'; subst d1; apply written_length_nat|].
    intros x' y' Hx' Hy' Hbefore. apply Hgood; try assumption.
    destruct (decide ((x, y) = (x', y'))) as [E|Hne].
    + injection E as Ex Ey. subst x' y'. left. subst d1.
      apply pattern_written; try assumption; try lia; apply js_rem_200;
        assumption.
    + destruct Hbefore as [Hold | [-> Hrow]].
      * left. subst d1.
        rewrite pixel_of_written_other; try assumption; lia.
      * right. split; [reflexivity|].
        assert (y <> y') by congruence. lia.
Qed.

(** The outer loop: it keeps the pattern pixels there are and makes the
    columns from [x] on pattern pixels. *)
Lemma generatePattern_columns_run (n : nat) :
  0 <= h ->
  forall (x seed : Z) (s : PixelGL) (d : list Z),
    data s = Some d -> Z.of_nat (length d) = w * h * 4 ->
    width s = w -> height s = h ->
    0 <= x -> x + Z.of_nat n = w -> 0 <= seed ->
    exists s' d',
      generatePattern_columns n x seed s = (Normal tt, s')
      /\ same_but_data s s'
      /\ data s' = Some d'
      /\ forall x' y',
           0 <= x' < w -> 0 <= y' < h ->
           pattern_pixel (pixel_of w d x' y') \/ x <= x' ->
           pattern_pixel (pixel_of w d' x' y').
Proof.
  intros Hh. induction n as [|n IH];
    intros x seed s d Hd Hlen Hw Hht Hx Hn Hseed;
    cbn [generatePattern_columns].
  - exists s, d. split; [reflexivity|]. split; [apply same_but_data_refl|].
    split; [exact Hd|].
    intros x' y' Hx' Hy' [Hgood | Hcol]; [exact Hgood | lia].
  - unfold bind at 1. unfold self at 1. unfold bind at 1. rewrite Hht.
    destruct (generatePattern_rows_run x (Z.to_nat h)) with
      (y := 0) (seed := seed) (s := s) (d := d)
      as (seed' & s1 & d1 & Hrun & Hseed' & Hsame & Hd1 & Hlen1 & Hgood1);
      try first [assumption | lia].
    rewrite Hrun.
    apply same_but_data_fields in Hsame as Hfields.
    destruct Hfields as (Hw1 & Hh1 & _).
    destruct (IH (x + 1) seed' s1 d1)
      as (s' & d' & Hrun' & Hsame' & Hd' & Hgood');
      try first [assumption | lia | congruence].
    exists s', d'. split; [exact Hrun'|].
    split; [unfold same_but_data in *; congruence|].
    split; [exact Hd'|].
    intros x' y' Hx' Hy' Hbefore. apply Hgood'; try assumption.
    destruct (decide (x' = x)) as [->|Hne].
    + left. apply Hgood1; try assumption. right. split; [reflexivity | lia].
    + destruct Hbefore as [Hold | Hcol].
      * left. apply Hgood1; try assumption. left. exact Hold.
      * right. lia.
Qed.

End Pattern.

(** X24.  On every instance whose constructor succeeded, after any sequence
    of calls: [generatePattern], started from a seed that is not negative,
    returns normally having written every pixel of the surface; [getPixel]
    at any in-bounds pixel then returns an opaque colour, alpha 255, whose
    red, green and blue are between 0 and 199. *)
Theorem generatePattern_fills_the_surface
    (H : host) (canvasID : string) (w h : Z) (calls : list call) (seed : Z) :
  safe (snd (construct H canvasID w h)) = true ->
  0 <= seed ->
  exists s',
    generatePattern seed (instance H canvasID w h calls) = (Normal tt, s')
    /\ forall x y,
         0 <= x < w -> 0 <= y < h ->
         exists p,
           getPixel x y s' = (Normal p, s')
           /\ px p = x /\ py p = y /\ pattern_pixel p.
Proof.
  intros Hsafe Hseed.
  destruct (built_instance H canvasID w h Hsafe calls)
    as (Hw & Hh & _ & d & Hd & Hlen).
  unfold generatePattern. unfold bind at 1. unfold self at 1. rewrite Hw.
  destruct (Z.le_gt_cases w 0) as [Hempty|Hpos].
  - replace (Z.to_nat w) with 0%nat by lia. cbn [generatePattern_columns].
    eexists. split; [reflexivity|]. intros x y Hx Hy. lia.
  - assert (Hnonneg : 0 <= h) by nia.
    destruct (generatePattern_columns_run w h (Z.to_nat w) Hnonneg 0 seed
                (instance H canvasID w h calls) d)
      as (s' & d' & Hrun & Hsame & Hd' & Hgood); try first [assumption | lia].
    exists s'. split; [exact Hrun|]. intros x y Hx Hy.
    apply same_but_data_fields in Hsame. destruct Hsame as (Hw' & _).
    eexists. split; [apply (getPixel_pixel_of s' d'), Hd'|].
    split; [reflexivity|]. split; [reflexivity|].
    rewrite Hw', Hw. apply Hgood; try assumption. right. lia.
Qed.

Lemma generatePattern_fills_the_surface_witness :
  exists s',
    generatePattern 8388607 (instance demo_host "canvas" 3 2 [])
    = (Normal tt, s')
    /\ forall x y,
         0 <= x < 3 -> 0 <= y < 2 ->
         exists p,
           getPixel x y s' = (Normal p, s')
           /\ px p = x /\ py p = y /\ pattern_pixel p.
Proof.
  apply (generatePattern_fills_the_surface demo_host "canvas" 3 2 []);
    first [reflexivity | lia].
Defined.

Lemma construct_not_initialized (H : host) (canvasID : string) (w h : Z) :
  initialized (snd (construct H canvasID w h)) = false.
Proof.
  unfold_constructor.
  destruct (document_querySelector H _) as [[element|]|e]; cbn;
    try reflexivity.
  destruct (canvas_getContext H element) as [[|]|e]; cbn; try reflexivity.
  destruct (_ || _); reflexivity.
Qed.

(** X25.  The page calls [initialize] only on a safe instance and starts
    the animation only on an initialized one: when the lookup of [#canvas]
    does not throw, the element it finds is a canvas, a 960 by 640 buffer
    can be allocated, and both shader fetches resolve with a body that can
    be read, the [initialize] function of the page returns normally in
    every case, and it requests the first animation frame exactly when the
    constructor succeeded and the five steps of the class's [initialize]
    succeeded. *)
Theorem page_starts_only_when_initialized (H : host) :
  (exists c, document_querySelector H "#canvas" = Normal c) ->
  (forall element,
     document_querySelector H "#canvas" = Normal (Some element) ->
     exists supported, canvas_getContext H element = Normal supported) ->
  960 * 640 * 4 <= typed_array_max_length H ->
  resolves H "shaders/pixelGL.vert" -> resolves H "shaders/pixelGL.frag" ->
  exists started pixelGL,
    page_initialize H blank = (Normal started, pixelGL)
    /\ started = initialized pixelGL
    /\ safe pixelGL = safe (snd (construct H "canvas" 960 640))
    /\ (started = true <->
        safe (snd (construct H "canvas" 960 640)) = true
        /\ all_steps_succeed H "shaders/pixelGL.vert" "shaders/pixelGL.frag"
           = true).
Proof.
  intros Hsel Hctx Hfits Hv Hf.
  destruct (construct_completes H "canvas" 960 640) as [Hret _];
    [exact Hsel | exact Hctx | lia |].
  pose proof (construct_not_initialized H "canvas" 960 640) as Hini.
  unfold page_initialize. unfold bind at 1.
  change (constructor H "canvas" 960 640 blank)
    with (construct H "canvas" 960 640).
  destruct (construct H "canvas" 960 640) as [c s0] eqn:Hc.
  cbn [fst snd] in *. subst c.
  unfold bind at 1. unfold self at 1. unfold bind at 1.
  destruct (safe s0) eqn:Hsafe.
  - assert (Hsafe' : safe (snd (construct H "canvas" 960 640)) = true)
      by (rewrite Hc; exact Hsafe).
    pose proof (built_instance H "canvas" 960 640 Hsafe' []) as Hbuilt.
    unfold instance in Hbuilt. cbn [run_calls fold_left] in Hbuilt.
    rewrite Hc in Hbuilt. cbn [snd] in Hbuilt.
    destruct Hbuilt as (_ & _ & (g & Hg & _) & _).
    destruct (initialize_result H "shaders/pixelGL.vert"
                "shaders/pixelGL.frag" s0) as [Hres _];
      [eauto | exact Hv | exact Hf |].
    pose proof (initialize_flag H "shaders/pixelGL.vert"
                  "shaders/pixelGL.frag" s0) as Hflag.
    pose proof (keeps_initialize H (fun s => safe s = true)
                  "shaders/pixelGL.vert" "shaders/pixelGL.frag" s0 Hsafe)
      as Hkeeps.
    rewrite Hg, Hini, orb_false_r in Hflag.
    unfold bind at 1.
    destruct (initialize H "shaders/pixelGL.vert" "shaders/pixelGL.frag" s0)
      as [r s1].
    cbn [fst snd] in *. rewrite Hres.
    cbv beta iota delta [ret bind self]. rewrite Hflag.
    destruct (all_steps_succeed H _ _);
      eexists; eexists; (split; [reflexivity|]);
      cbn [snd]; rewrite ?Hflag, ?Hkeeps; repeat split;
      try tauto; try (intros [_ ?]; assumption).
  - cbv beta iota delta [ret bind self]. rewrite Hini.
    eexists. eexists. split; [reflexivity|].
    rewrite Hini, Hsafe. repeat split; try discriminate.
    intros [? _]. discriminate.
Qed.

Lemma page_starts_only_when_initialized_witness :
  exists started pixelGL,
    page_initialize missing_fragment_host blank = (Normal started, pixelGL)
    /\ started = initialized pixelGL.
Proof.
  destruct (page_starts_only_when_initialized missing_fragment_host)
    as (started & pixelGL & Hrun & Hstarted & _);
    [ eexists; reflexivity | intros element _; eexists; reflexivity
    | discriminate | eexists; reflexivity | eexists; reflexivity | ].
  exists started, pixelGL. split; [exact Hrun | exact Hstarted].
Defined.
